(** * Invoices and invoice statistics: a shallow embedding of [invoices.py]

    The development follows the two classes of the module:
    - [Invoice]: an amount in pounds and pennies, validated on construction;
    - [InvoiceStats]: a growable list of invoices with a running count, a
      capacity guard, and the mean and the median of the stored amounts,
      rounded "half down".

    Python values are dynamically typed, so the arguments of the constructor
    are values of a small universe [pyval] (int, bool, float, str, None), and
    every operation that can raise returns a [result].  Floats are IEEE 754
    binary64 numbers, given by the [spec_float] type of the standard library
    with its correctly rounded operations. *)

From Stdlib Require Import ZArith QArith Qround List String Ascii Bool Lia.
From Stdlib Require Import DecimalString.
From Stdlib Require Import Sorted Permutation.
From Stdlib Require Import Floats.SpecFloat.
Import ListNotations.

Local Open Scope Z_scope.

Module Float.

(** Binary64: 53 bits of precision, infinities at exponent 1024. *)
Definition prec : Z := 53.
Definition emax : Z := 1024.

Definition float : Type := spec_float.

Definition add : float -> float -> float := SFadd prec emax.
Definition mul : float -> float -> float := SFmul prec emax.

Definition is_finite (x : float) : bool :=
  match x with
  | S754_zero _ | S754_finite _ _ _ => true
  | S754_infinity _ | S754_nan => false
  end.

(** The exact value of a finite float, [m * 2^e], as a rational. *)
Definition to_Q (x : float) : Q :=
  match x with
  | S754_finite s m e =>
      match e with
      | Zneg k => cond_Zopp s (Zpos m) # (2 ^ k)
      | _ => inject_Z (cond_Zopp s (Zpos m) * 2 ^ e)
      end
  | _ => 0%Q
  end.

(** The integer [z] converted to the nearest float (ties to even);
    an infinity when [z] is out of range. *)
Definition of_Z (z : Z) : float := binary_normalize prec emax z 0 false.

(** The correctly rounded quotient of two integers, [b <> 0]. *)
Definition div_Z (a b : Z) : float :=
  let s := xorb (a <? 0) (b <? 0) in
  match a with
  | Z0 => S754_zero s
  | _ =>
      let '(mz, ez, lz) :=
        SFdiv_core_binary prec emax (Z.abs a) 0 (Z.abs b) 0 in
      binary_round_aux prec emax s mz ez lz
  end.

(** IEEE comparison: [None] when an operand is a NaN; finite operands are
    compared by value. *)
Definition compare (x y : float) : option comparison :=
  match x, y with
  | S754_nan, _ | _, S754_nan => None
  | S754_infinity s1, S754_infinity s2 =>
      Some (match s1, s2 with
            | true, false => Lt
            | false, true => Gt
            | _, _ => Eq
            end)
  | S754_infinity s, _ => Some (if s then Lt else Gt)
  | _, S754_infinity s => Some (if s then Gt else Lt)
  | _, _ => Some (to_Q x ?= to_Q y)%Q
  end.

Definition leb (x y : float) : bool :=
  match compare x y with Some (Lt | Eq) => true | _ => false end.

(** C's [fmod x 1.0]: the exact remainder, with the sign of [x]. *)
Definition fmod1 (x : float) : float :=
  match x with
  | S754_nan | S754_infinity _ => S754_nan
  | S754_zero s => S754_zero s
  | S754_finite s m e =>
      match e with
      | Zneg k =>
          match Zpos m mod 2 ^ Zpos k with
          | Zpos r => S754_finite s r e
          | _ => S754_zero s
          end
      | _ => S754_zero s
      end
  end.

Definition one : float := Eval vm_compute in of_Z 1.
Definition half : float := Eval vm_compute in div_Z 1 2.

(** CPython's [float_rem] at the divisor [1.0]: the remainder of [fmod],
    moved into the sign of the divisor by one rounded addition. *)
Definition rem1 (x : float) : float :=
  let md := fmod1 x in
  match md with
  | S754_zero _ => S754_zero false
  | S754_finite true _ _ => add md one
  | _ => md
  end.

(** [floor] and [ceil] of a finite float, exact. *)
Definition floor (x : float) : Z :=
  match x with
  | S754_finite s m e =>
      match e with
      | Zneg k => cond_Zopp s (Zpos m) / 2 ^ Zpos k
      | _ => cond_Zopp s (Zpos m) * 2 ^ e
      end
  | _ => 0
  end.

Definition ceil (x : float) : Z :=
  match x with
  | S754_finite s m e =>
      match e with
      | Zneg k => - (cond_Zopp (negb s) (Zpos m) / 2 ^ Zpos k)
      | _ => cond_Zopp s (Zpos m) * 2 ^ e
      end
  | _ => 0
  end.

End Float.

(** ** Python values *)

(** The values an argument can be.  [bool] is a subclass of [int], so a
    [VBool] passes [isinstance(_, int)] and counts as 0 or 1 in arithmetic. *)
Inductive pyval : Type :=
| VInt (z : Z)
| VBool (b : bool)
| VFloat (x : Float.float)
| VStr (s : string)
| VNone.

(** [type(v).__name__] *)
Definition type_name (v : pyval) : string :=
  match v with
  | VInt _ => "int"
  | VBool _ => "bool"
  | VFloat _ => "float"
  | VStr _ => "str"
  | VNone => "NoneType"
  end.

(** The integer carried by an instance of [int]. *)
Definition as_int (v : pyval) : option Z :=
  match v with
  | VInt z => Some z
  | VBool b => Some (Z.b2z b)
  | _ => None
  end.

(** [isinstance(v, int)] *)
Definition isinstance_int (v : pyval) : bool :=
  match as_int v with Some _ => true | None => false end.

(** ** Exceptions and results *)

(** The text of an [InvoiceValidationError], one constructor per message of
    the source; the interpolated values are kept as fields. *)
Inductive validation_message : Type :=
| PoundsNotInt (type_name : string)
    (* "Pounds cannot be of type {type_name}. For valid invoice, pounds must
       be an integer value." *)
| PenniesNotInt (type_name : string)
    (* "Pennies cannot be of type {type_name}. For valid invoice, pennies must
       be an integer value." *)
| NegativeValues
    (* "Invoice values cannot be negative." *)
| PenniesAbove99
    (* "Pennies cannot be greater than 99." *)
| TotalAboveMax (pounds_shown pennies_shown : pyval).
    (* "Total invoice amount cannot be greater than ... Attempted invoice
       value: {pounds}.{pennies_rem}." *)

Inductive exn : Type :=
| InvoiceValidationError (message : validation_message)
| InvoiceStatsTypeError (data_type : string)
| MaxNumberOfInvoicesError (max_invoice_num : Float.float)
| StatisticsError
| AttributeError
| TypeError
| ValueError
| OverflowError
| ZeroDivisionError.

Inductive result (A : Type) : Type :=
| Ok (a : A)
| Raise (e : exn).

Arguments Ok {A} a.
Arguments Raise {A} e.

Definition bind {A B : Type} (r : result A) (k : A -> result B) : result B :=
  match r with
  | Ok a => k a
  | Raise e => Raise e
  end.

Declare Scope py_scope.
Delimit Scope py_scope with py.
Notation "x <- c ;; k" := (bind c (fun x => k))
  (at level 61, c at next level, right associativity) : py_scope.
Notation "c ;;; k" := (bind c (fun _ => k))
  (at level 61, right associativity) : py_scope.
Local Open Scope py_scope.

(** ** Arithmetic and comparison on Python values *)

(** [float(z)] for an int [z]: an [OverflowError] when [z] is too large. *)
Definition int_to_float (z : Z) : result Float.float :=
  let x := Float.of_Z z in
  if Float.is_finite x then Ok x else Raise OverflowError.

(** [a / b] on ints: correctly rounded true division. *)
Definition int_true_div (a b : Z) : result Float.float :=
  if b =? 0 then Raise ZeroDivisionError
  else
    let x := Float.div_Z a b in
    if Float.is_finite x then Ok x else Raise OverflowError.

Fixpoint str_repeat (n : nat) (s : string) : string :=
  match n with
  | O => EmptyString
  | S n' => (s ++ str_repeat n' s)%string
  end.

(** [a * b] *)
Definition py_mul (a b : pyval) : result pyval :=
  match as_int a, as_int b with
  | Some x, Some y => Ok (VInt (x * y))
  | Some x, None =>
      match b with
      | VFloat y => fx <- int_to_float x ;; Ok (VFloat (Float.mul fx y))
      | VStr s => Ok (VStr (str_repeat (Z.to_nat x) s))
      | _ => Raise TypeError
      end
  | None, Some y =>
      match a with
      | VFloat x => fy <- int_to_float y ;; Ok (VFloat (Float.mul x fy))
      | VStr s => Ok (VStr (str_repeat (Z.to_nat y) s))
      | _ => Raise TypeError
      end
  | None, None =>
      match a, b with
      | VFloat x, VFloat y => Ok (VFloat (Float.mul x y))
      | _, _ => Raise TypeError
      end
  end.

(** [a + b] *)
Definition py_add (a b : pyval) : result pyval :=
  match as_int a, as_int b with
  | Some x, Some y => Ok (VInt (x + y))
  | Some x, None =>
      match b with
      | VFloat y => fx <- int_to_float x ;; Ok (VFloat (Float.add fx y))
      | _ => Raise TypeError
      end
  | None, Some y =>
      match a with
      | VFloat x => fy <- int_to_float y ;; Ok (VFloat (Float.add x fy))
      | _ => Raise TypeError
      end
  | None, None =>
      match a, b with
      | VFloat x, VFloat y => Ok (VFloat (Float.add x y))
      | VStr s, VStr t => Ok (VStr (s ++ t))
      | _, _ => Raise TypeError
      end
  end.

(** The order of an int and a float, exact: [None] against a NaN. *)
Definition compare_int_float (z : Z) (y : Float.float) : option comparison :=
  match y with
  | S754_nan => None
  | S754_infinity s => Some (if s then Gt else Lt)
  | _ => Some (inject_Z z ?= Float.to_Q y)%Q
  end.

Definition opt_CompOpp (c : option comparison) : option comparison :=
  option_map CompOpp c.

(** The three-way comparison behind [<], [<=], [>] and [>=]: [Raise] for
    unorderable types, [Ok None] when a NaN makes every test false. *)
Definition py_compare (a b : pyval) : result (option comparison) :=
  match as_int a, as_int b with
  | Some x, Some y => Ok (Some (x ?= y))
  | Some x, None =>
      match b with
      | VFloat y => Ok (compare_int_float x y)
      | _ => Raise TypeError
      end
  | None, Some y =>
      match a with
      | VFloat x => Ok (opt_CompOpp (compare_int_float y x))
      | _ => Raise TypeError
      end
  | None, None =>
      match a, b with
      | VFloat x, VFloat y => Ok (Float.compare x y)
      | VStr s, VStr t => Ok (Some (String.compare s t))
      | _, _ => Raise TypeError
      end
  end.

Definition py_lt (a b : pyval) : result bool :=
  c <- py_compare a b ;;
  Ok (match c with Some Lt => true | _ => false end).

Definition py_le (a b : pyval) : result bool :=
  c <- py_compare a b ;;
  Ok (match c with Some (Lt | Eq) => true | _ => false end).

Definition py_gt (a b : pyval) : result bool :=
  c <- py_compare a b ;;
  Ok (match c with Some Gt => true | _ => false end).

Definition py_ge (a b : pyval) : result bool :=
  c <- py_compare a b ;;
  Ok (match c with Some (Gt | Eq) => true | _ => false end).

(** [v % 1] for a number [v].  On a str the operator formats the string,
    which is not modelled: the outcome is given as [TypeError]. *)
Definition py_mod1 (v : pyval) : result pyval :=
  match v with
  | VInt z => Ok (VInt (z mod 1))
  | VBool b => Ok (VInt (Z.b2z b mod 1))
  | VFloat x => Ok (VFloat (Float.rem1 x))
  | _ => Raise TypeError
  end.

(** [math.floor] and [math.ceil]: an int for a finite number. *)
Definition math_floor (v : pyval) : result pyval :=
  match v with
  | VInt z => Ok (VInt z)
  | VBool b => Ok (VInt (Z.b2z b))
  | VFloat S754_nan => Raise ValueError
  | VFloat (S754_infinity _) => Raise OverflowError
  | VFloat x => Ok (VInt (Float.floor x))
  | _ => Raise TypeError
  end.

Definition math_ceil (v : pyval) : result pyval :=
  match v with
  | VInt z => Ok (VInt z)
  | VBool b => Ok (VInt (Z.b2z b))
  | VFloat S754_nan => Raise ValueError
  | VFloat (S754_infinity _) => Raise OverflowError
  | VFloat x => Ok (VInt (Float.ceil x))
  | _ => Raise TypeError
  end.

(** ** Class [Invoice] *)

Record Invoice : Type := {
  issue_dt : string;
  supplier : pyval;
  recipient : pyval;
  pounds : pyval;
  pennies_rem : pyval;
  pennies_tot : pyval
}.

Definition set_pennies_tot (self : Invoice) (v : pyval) : Invoice :=
  {| issue_dt := issue_dt self;
     supplier := supplier self;
     recipient := recipient self;
     pounds := pounds self;
     pennies_rem := pennies_rem self;
     pennies_tot := v |}.

(** The maximum value of an invoice in pennies, the float [2E10]. *)
Definition _MAX_VALUE_PENNIES : Float.float :=
  Eval vm_compute in Float.of_Z 20000000000.

Definition convert_to_pennies (self : Invoice) : result pyval :=
  h <- py_mul (VInt 100) (pounds self) ;;
  py_add h (pennies_rem self).

Definition _check_int_values (self : Invoice) : result unit :=
  if negb (isinstance_int (pounds self)) then
    Raise (InvoiceValidationError (PoundsNotInt (type_name (pounds self))))
  else if negb (isinstance_int (pennies_rem self)) then
    Raise (InvoiceValidationError (PenniesNotInt (type_name (pennies_rem self))))
  else Ok tt.

Definition _check_negative_values (self : Invoice) : result unit :=
  a <- py_lt (pounds self) (VInt 0) ;;
  if a then Raise (InvoiceValidationError NegativeValues)
  else
    b <- py_lt (pennies_rem self) (VInt 0) ;;
    if b then Raise (InvoiceValidationError NegativeValues) else Ok tt.

Definition _check_pennies (self : Invoice) : result unit :=
  a <- py_gt (pennies_rem self) (VInt 99) ;;
  if a then Raise (InvoiceValidationError PenniesAbove99) else Ok tt.

Definition _check_max_value (self : Invoice) : result unit :=
  a <- py_gt (pennies_tot self) (VFloat _MAX_VALUE_PENNIES) ;;
  if a then
    Raise (InvoiceValidationError
             (TotalAboveMax (pounds self) (pennies_rem self)))
  else Ok tt.

Definition _check_valid_inputs (self : Invoice) : result unit :=
  _check_int_values self ;;;
  _check_negative_values self ;;;
  _check_pennies self ;;;
  _check_max_value self.

(** [Invoice(supplier, recipient, pounds, pennies_rem)], run on the day
    [today] (the text [datetime.now().strftime("%Y-%m-%d")] gives).  The
    attributes are assigned in the order of the source: the total is computed
    from the raw arguments before any of them is checked. *)
Definition Invoice_init (today : string)
    (supplier recipient pounds pennies_rem : pyval) : result Invoice :=
  let self :=
    {| issue_dt := today;
       supplier := supplier;
       recipient := recipient;
       pounds := pounds;
       pennies_rem := pennies_rem;
       pennies_tot := VNone |} in
  tot <- convert_to_pennies self ;;
  let self := set_pennies_tot self tot in
  _check_valid_inputs self ;;;
  Ok self.

(** ** The text of an invoice *)





Section Display.

(** [repr] of a float, the shortest decimal text that reads back as the
    float: taken as given. *)
Variable float_repr : Float.float -> string.




End Display.


(** ** The functions of the [statistics] module that the class calls *)

Module statistics.

(** [sorted] on ints, by insertion. *)
Fixpoint insert (x : Z) (l : list Z) : list Z :=
  match l with
  | [] => [x]
  | y :: l' => if x <=? y then x :: l else y :: insert x l'
  end.

Fixpoint sorted (l : list Z) : list Z :=
  match l with
  | [] => []
  | x :: l' => insert x (sorted l')
  end.

(** The ints of a list of data; [None] when an item is not of type [int]. *)
Fixpoint int_data (data : list pyval) : option (list Z) :=
  match data with
  | [] => Some []
  | VInt z :: data' => option_map (cons z) (int_data data')
  | _ :: _ => None
  end.

Definition sum (data : list Z) : Z := fold_right Z.add 0 data.

(** The library covers every numeric type; the model covers data of type
    [int], the only data an [InvoiceStats] built from constructed invoices
    holds, and answers [TypeError] on anything else.

    [median]: the middle item of the sorted data, or the true quotient by 2
    of the sum of the two middle items. *)
Definition median (data : list pyval) : result pyval :=
  match int_data data with
  | None => Raise TypeError
  | Some zs =>
      let data := sorted zs in
      let n := Z.of_nat (List.length data) in
      if n =? 0 then Raise StatisticsError
      else if n mod 2 =? 1 then Ok (VInt (nth (Z.to_nat (n / 2)) data 0))
      else
        let i := n / 2 in
        q <- int_true_div
               (nth (Z.to_nat (i - 1)) data 0 + nth (Z.to_nat i) data 0) 2 ;;
        Ok (VFloat q)
  end.

(** [mean]: the exact fraction [total / n], returned as an int when it is
    one and as the nearest float otherwise. *)
Definition mean (data : list pyval) : result pyval :=
  match int_data data with
  | None => Raise TypeError
  | Some zs =>
      let n := Z.of_nat (List.length zs) in
      if n <? 1 then Raise StatisticsError
      else
        let total := sum zs in
        if total mod n =? 0 then Ok (VInt (total / n))
        else q <- int_true_div total n ;; Ok (VFloat q)
  end.

End statistics.

(** ** Class [InvoiceStats] *)

(** What a caller can pass where an invoice is expected. *)
Inductive pyobj : Type :=
| OInvoice (inv : Invoice)
| OVal (v : pyval).

(** [type(o).__name__] *)
Definition obj_type_name (o : pyobj) : string :=
  match o with
  | OInvoice _ => "Invoice"
  | OVal v => type_name v
  end.

Record InvoiceStats : Type := {
  invoice_list : list pyobj;
  invoice_count : Z
}.

(** The maximum number of invoices, the float [2E7]. *)
Definition _INVOICE_COUNT_MAX : Float.float :=
  Eval vm_compute in Float.of_Z 20000000.

(** A method: it returns or raises, and leaves the object in a state. *)
Definition method (A : Type) : Type := InvoiceStats -> result A * InvoiceStats.

Definition mret {A : Type} (a : A) : method A := fun self => (Ok a, self).

Definition mraise {A : Type} (e : exn) : method A := fun self => (Raise e, self).

Definition mbind {A B : Type} (m : method A) (k : A -> method B) : method B :=
  fun self =>
    match m self with
    | (Ok a, self') => k a self'
    | (Raise e, self') => (Raise e, self')
    end.

Notation "m >> k" := (mbind m (fun _ => k))
  (at level 62, right associativity) : py_scope.

Definition clear : method unit :=
  fun _ => (Ok tt, {| invoice_list := []; invoice_count := 0 |}).

Definition is_invoice (invoice : pyobj) : method unit :=
  match invoice with
  | OInvoice _ => mret tt
  | OVal _ => mraise (InvoiceStatsTypeError (obj_type_name invoice))
  end.

Definition check_max_invoice_num : method unit :=
  fun self =>
    match py_ge (VInt (invoice_count self)) (VFloat _INVOICE_COUNT_MAX) with
    | Ok true => (Raise (MaxNumberOfInvoicesError _INVOICE_COUNT_MAX), self)
    | Ok false => (Ok tt, self)
    | Raise e => (Raise e, self)
    end.

Definition incr_invoice_count : method unit :=
  fun self =>
    (Ok tt, {| invoice_list := invoice_list self;
               invoice_count := invoice_count self + 1 |}).

Definition append_invoice (invoice : pyobj) : method unit :=
  fun self =>
    (Ok tt, {| invoice_list := invoice_list self ++ [invoice];
               invoice_count := invoice_count self |}).

Definition add_invoice (invoice : pyobj) : method unit :=
  is_invoice invoice >>
  check_max_invoice_num >>
  incr_invoice_count >>
  append_invoice invoice.

Fixpoint add_invoices (invoices : list pyobj) : method unit :=
  match invoices with
  | [] => mret tt
  | invoice :: rest => add_invoice invoice >> add_invoices rest
  end.

(** The constructor, called on the positional arguments [args]: the object a
    failed constructor leaves is lost. *)
Definition InvoiceStats_init (args : list pyobj) : result InvoiceStats :=
  let blank := {| invoice_list := []; invoice_count := 0 |} in
  match (clear >> add_invoices args) blank with
  | (Ok _, self) => Ok self
  | (Raise e, _) => Raise e
  end.

(** [amount.pennies_tot] *)
Definition get_pennies_tot (amount : pyobj) : result pyval :=
  match amount with
  | OInvoice inv => Ok (pennies_tot inv)
  | OVal _ => Raise AttributeError
  end.

Fixpoint amounts_of (l : list pyobj) : result (list pyval) :=
  match l with
  | [] => Ok []
  | amount :: l' =>
      v <- get_pennies_tot amount ;;
      vs <- amounts_of l' ;;
      Ok (v :: vs)
  end.

(** The amounts the generator yields, in the order of the list. *)
Definition invoice_amounts (self : InvoiceStats) : result (list pyval) :=
  amounts_of (invoice_list self).

Definition round_half_down (pennies : pyval) : result pyval :=
  fractional_penny <- py_mod1 pennies ;;
  below <- py_le fractional_penny (VFloat Float.half) ;;
  if below then math_floor pennies else math_ceil pennies.

Definition get_median (self : InvoiceStats) : result pyval :=
  _invoice_amounts <- invoice_amounts self ;;
  m <- statistics.median _invoice_amounts ;;
  round_half_down m.

Definition get_mean (self : InvoiceStats) : result pyval :=
  _invoice_amounts <- invoice_amounts self ;;
  m <- statistics.mean _invoice_amounts ;;
  round_half_down m.

(** ** Reference definitions used in the statements *)

(** Rounding half down on exact numbers: the floor when the fractional part
    is at most one half, the ceiling otherwise. *)
Definition half_down (q : Q) : Z :=
  if Qle_bool (q - inject_Z (Qfloor q)) (1 # 2) then Qfloor q else Qceiling q.

(** The finite floats that are not negative (a zero of either sign is one). *)
Definition nonneg_finite (x : Float.float) : bool :=
  match x with
  | S754_zero _ | S754_finite false _ _ => true
  | _ => false
  end.

(** The float a decimal literal [num / den] denotes: the nearest one. *)
Definition float_literal (num den : Z) : pyval := VFloat (Float.div_Z num den).

(** The values of the unit test of [round_half_down]:
    10.0, 10.2, 10.5, 10.5000001 and 10.8. *)
Definition test_values : list pyval :=
  [ float_literal 10 1; float_literal 102 10; float_literal 105 10;
    float_literal 105000001 10000000; float_literal 108 10 ].

Definition expected_results : list (result pyval) :=
  [ Ok (VInt 10); Ok (VInt 10); Ok (VInt 10); Ok (VInt 11); Ok (VInt 11) ].

(** The largest float below one half, negated: -0.49999999999999994. *)
Definition just_above_minus_half : Float.float :=
  S754_finite true 9007199254740991 (-54).

(** The invoice the constructor builds for [pounds] and [pennies] between
    two test companies. *)
Definition test_invoice (p q : Z) : Invoice :=
  {| issue_dt := "2021-03-01";
     supplier := VStr "Company-A";
     recipient := VStr "Company-B";
     pounds := VInt p;
     pennies_rem := VInt q;
     pennies_tot := VInt (100 * p + q) |}.

(** The states of an [InvoiceStats] that its own interface produces: the
    constructor, then any sequence of [add_invoice], [add_invoices] and
    [clear], whether a call returns or raises. *)
Inductive reachable : InvoiceStats -> Prop :=
| reachable_init (args : list pyobj) (self : InvoiceStats) :
    InvoiceStats_init args = Ok self -> reachable self
| reachable_add_invoice (invoice : pyobj) (self : InvoiceStats) :
    reachable self -> reachable (snd (add_invoice invoice self))
| reachable_add_invoices (invoices : list pyobj) (self : InvoiceStats) :
    reachable self -> reachable (snd (add_invoices invoices self))
| reachable_clear (self : InvoiceStats) :
    reachable self -> reachable (snd (clear self)).

(** The count is the length of the list and is within the maximum. *)
Definition count_ok (self : InvoiceStats) : Prop :=
  invoice_count self = Z.of_nat (List.length (invoice_list self)) /\
  invoice_count self <= 20000000.

(** The invoices the constructor of [Invoice] returns. *)
Definition constructed (o : pyobj) : Prop :=
  exists (inv : Invoice) (today : string) (sup rcp pds pns : pyval),
    o = OInvoice inv /\ Invoice_init today sup rcp pds pns = Ok inv.

(** 150001 invoices of 171798691.85 followed by 150000 of 171798691.84. *)
Definition many_invoices : list pyobj :=
  repeat (OInvoice (test_invoice 171798691 85)) (Z.to_nat 150001)
  ++ repeat (OInvoice (test_invoice 171798691 84)) (Z.to_nat 150000).

Definition many_amounts : list Z :=
  repeat 17179869185 (Z.to_nat 150001) ++ repeat 17179869184 (Z.to_nat 150000).

(** * Properties *)

Ltac run_bind := cbv beta iota delta [bind].

(** Splits on the tests [a <=? b] of the goal. *)
Ltac leb_cases :=
  repeat match goal with
         | |- context [?a <=? ?b] => destruct (Z.leb_spec a b)
         end.

(** Replaces the tests [a <? b] that the hypotheses make false. *)
Ltac ltb_false :=
  repeat match goal with
         | |- context [?a <? ?b] =>
             replace (a <? b) with false by (symmetry; apply Z.ltb_ge; lia)
         end.
Tactic Notation "run_bind" "in" hyp(H) := cbv beta iota delta [bind] in H.

(** ** Comparisons against the two float constants *)

Lemma to_Q_MAX_VALUE_PENNIES :
  (Float.to_Q _MAX_VALUE_PENNIES == inject_Z 20000000000)%Q.
Proof. reflexivity. Qed.

Lemma to_Q_INVOICE_COUNT_MAX :
  (Float.to_Q _INVOICE_COUNT_MAX == inject_Z 20000000)%Q.
Proof. reflexivity. Qed.

Lemma compare_int_MAX_VALUE_PENNIES (z : Z) :
  compare_int_float z _MAX_VALUE_PENNIES = Some (z ?= 20000000000).
Proof.
  unfold compare_int_float, _MAX_VALUE_PENNIES, Float.to_Q, Qcompare, inject_Z.
  cbn [Qnum Qden cond_Zopp]. f_equal.
  change (Z.pos 5242880000000000 * 1) with (20000000000 * Z.pos (2 ^ 18)).
  symmetry. now apply Zmult_compare_compat_r.
Qed.

Lemma compare_int_INVOICE_COUNT_MAX (z : Z) :
  compare_int_float z _INVOICE_COUNT_MAX = Some (z ?= 20000000).
Proof.
  unfold compare_int_float, _INVOICE_COUNT_MAX, Float.to_Q, Qcompare, inject_Z.
  cbn [Qnum Qden cond_Zopp]. f_equal.
  change (Z.pos 5368709120000000 * 1) with (20000000 * Z.pos (2 ^ 28)).
  symmetry. now apply Zmult_compare_compat_r.
Qed.

Lemma py_gt_MAX_VALUE_PENNIES (z : Z) :
  py_gt (VInt z) (VFloat _MAX_VALUE_PENNIES) = Ok (20000000000 <? z).
Proof.
  unfold py_gt, py_compare; simpl as_int; cbv beta iota.
  rewrite compare_int_MAX_VALUE_PENNIES; run_bind.
  rewrite Z.ltb_antisym, Z.leb_compare.
  now destruct (z ?= 20000000000).
Qed.

Lemma py_ge_INVOICE_COUNT_MAX (z : Z) :
  py_ge (VInt z) (VFloat _INVOICE_COUNT_MAX) = Ok (20000000 <=? z).
Proof.
  unfold py_ge, py_compare; simpl as_int; cbv beta iota.
  rewrite compare_int_INVOICE_COUNT_MAX; run_bind.
  rewrite Z.leb_antisym, Z.ltb_compare.
  now destruct (z ?= 20000000).
Qed.

Lemma py_lt_int (v : pyval) (x y : Z) :
  as_int v = Some x -> py_lt v (VInt y) = Ok (x <? y).
Proof.
  intros H. unfold py_lt, py_compare. rewrite H. simpl.
  now rewrite Z.ltb_compare.
Qed.

Lemma py_gt_int (v : pyval) (x y : Z) :
  as_int v = Some x -> py_gt v (VInt y) = Ok (y <? x).
Proof.
  intros H. unfold py_gt, py_compare. rewrite H. simpl.
  rewrite Z.ltb_antisym, Z.leb_compare. now destruct (x ?= y).
Qed.

(** ** The constructor of [Invoice] *)

(** On two instances of [int] the total is their exact combination. *)
Lemma convert_to_pennies_int (self : Invoice) (p q : Z) :
  as_int (pounds self) = Some p ->
  as_int (pennies_rem self) = Some q ->
  convert_to_pennies self = Ok (VInt (100 * p + q)).
Proof.
  intros Hp Hq. unfold convert_to_pennies, py_mul.
  simpl as_int at 1. rewrite Hp. run_bind.
  unfold py_add. simpl as_int at 1. now rewrite Hq.
Qed.

(** The checks, on an object whose two amounts are instances of [int] and
    whose total is an int: each test in the order of the source. *)
Lemma _check_valid_inputs_int (self : Invoice) (p q t : Z) :
  as_int (pounds self) = Some p ->
  as_int (pennies_rem self) = Some q ->
  pennies_tot self = VInt t ->
  _check_valid_inputs self =
    if (p <? 0) || (q <? 0) then Raise (InvoiceValidationError NegativeValues)
    else if 99 <? q then Raise (InvoiceValidationError PenniesAbove99)
    else if 20000000000 <? t then
      Raise (InvoiceValidationError
               (TotalAboveMax (pounds self) (pennies_rem self)))
    else Ok tt.
Proof.
  intros Hp Hq Ht.
  unfold _check_valid_inputs, _check_int_values, isinstance_int.
  rewrite Hp, Hq. simpl negb. cbv iota. run_bind.
  unfold _check_negative_values.
  rewrite (py_lt_int _ _ 0 Hp). run_bind.
  destruct (p <? 0); [reflexivity|].
  rewrite (py_lt_int _ _ 0 Hq). run_bind.
  destruct (q <? 0); [reflexivity|]. simpl orb. run_bind.
  unfold _check_pennies. rewrite (py_gt_int _ _ 99 Hq). run_bind.
  destruct (99 <? q); [reflexivity|]. run_bind.
  unfold _check_max_value. rewrite Ht, py_gt_MAX_VALUE_PENNIES. run_bind.
  now destruct (20000000000 <? t).
Qed.

(** An amount that is not an instance of [int] never passes the checks. *)
Lemma _check_valid_inputs_not_int (self : Invoice) :
  isinstance_int (pounds self) && isinstance_int (pennies_rem self) = false ->
  _check_valid_inputs self =
    Raise (InvoiceValidationError
             (if isinstance_int (pounds self)
              then PenniesNotInt (type_name (pennies_rem self))
              else PoundsNotInt (type_name (pounds self)))).
Proof.
  intros H. unfold _check_valid_inputs, _check_int_values.
  destruct (isinstance_int (pounds self)); simpl in *.
  - now rewrite H.
  - reflexivity.
Qed.

(** A constructed invoice holds two instances of [int] and their total. *)
Lemma Invoice_init_Ok_inv (today : string) (sup rcp pds pns : pyval)
    (inv : Invoice) :
  Invoice_init today sup rcp pds pns = Ok inv ->
  exists p q,
    as_int pds = Some p /\ as_int pns = Some q /\
    0 <= p /\ 0 <= q <= 99 /\ 100 * p + q <= 20000000000 /\
    inv = {| issue_dt := today; supplier := sup; recipient := rcp;
             pounds := pds; pennies_rem := pns;
             pennies_tot := VInt (100 * p + q) |}.
Proof.
  unfold Invoice_init. intros H.
  set (self := Build_Invoice today sup rcp pds pns VNone) in H.
  destruct (convert_to_pennies self) as [tot|e] eqn:Htot; [|discriminate].
  run_bind in H.
  destruct (isinstance_int pds && isinstance_int pns) eqn:Hi.
  - apply andb_prop in Hi. destruct Hi as [Hp Hq].
    unfold isinstance_int in Hp, Hq.
    destruct (as_int pds) as [p|] eqn:Ep; [|discriminate].
    destruct (as_int pns) as [q|] eqn:Eq; [|discriminate].
    rewrite (convert_to_pennies_int self p q Ep Eq) in Htot.
    replace tot with (VInt (100 * p + q)) in H by congruence.
    rewrite (_check_valid_inputs_int (set_pennies_tot self _) p q
               (100 * p + q) Ep Eq eq_refl) in H.
    destruct (p <? 0) eqn:E1; [discriminate|].
    destruct (q <? 0) eqn:E2; [discriminate|]. simpl orb in H. cbv iota in H.
    destruct (99 <? q) eqn:E3; [discriminate|].
    destruct (20000000000 <? 100 * p + q) eqn:E4; [discriminate|].
    simpl in H. injection H as <-.
    exists p, q. repeat split; try reflexivity; lia.
  - rewrite (_check_valid_inputs_not_int (set_pennies_tot self tot) Hi) in H.
    discriminate.
Qed.

(** The outcome on two ints, in full. *)
Lemma Invoice_init_int (today : string) (sup rcp : pyval) (p q : Z) :
  Invoice_init today sup rcp (VInt p) (VInt q) =
    if (p <? 0) || (q <? 0) then Raise (InvoiceValidationError NegativeValues)
    else if 99 <? q then Raise (InvoiceValidationError PenniesAbove99)
    else if 20000000000 <? 100 * p + q then
      Raise (InvoiceValidationError (TotalAboveMax (VInt p) (VInt q)))
    else Ok {| issue_dt := today; supplier := sup;
               recipient := rcp; pounds := VInt p;
               pennies_rem := VInt q; pennies_tot := VInt (100 * p + q) |}.
Proof.
  unfold Invoice_init.
  set (self := Build_Invoice today sup rcp (VInt p) (VInt q) VNone).
  rewrite (convert_to_pennies_int self p q eq_refl eq_refl). run_bind.
  rewrite (_check_valid_inputs_int (set_pennies_tot self _) p q (100 * p + q)
             eq_refl eq_refl eq_refl).
  simpl pounds; simpl pennies_rem.
  destruct (p <? 0); [reflexivity|]. destruct (q <? 0); [reflexivity|].
  simpl orb; cbv iota.
  destruct (99 <? q); [reflexivity|].
  now destruct (20000000000 <? 100 * p + q).
Qed.

(** C2. For every pair of ints [major >= 0], [0 <= minor <= 99] with
    [100 * major + minor <= 2 * 10^10], the constructor returns an invoice,
    and [convert_to_pennies] on it returns [100 * major + minor], which is
    also the stored total. *)
Theorem C2_valid_amounts_construct (today : string) (sup rcp : pyval)
    (major minor : Z) :
  0 <= major ->
  0 <= minor <= 99 ->
  100 * major + minor <= 2 * 10 ^ 10 ->
  exists inv : Invoice,
    Invoice_init today sup rcp (VInt major) (VInt minor) = Ok inv /\
    convert_to_pennies inv = Ok (VInt (100 * major + minor)) /\
    pennies_tot inv = VInt (100 * major + minor).
Proof.
  intros Hmajor Hminor Htotal.
  change (2 * 10 ^ 10) with 20000000000 in Htotal.
  rewrite Invoice_init_int.
  ltb_false.
  simpl orb; cbv iota.
  eexists; split; [reflexivity|]. split; [|reflexivity].
  now apply convert_to_pennies_int.
Qed.

(** The invoice of the unit test: 19 pounds and 84 pennies are 1984 pennies. *)
Lemma C2_witness_19_84 :
  exists inv : Invoice,
    Invoice_init "2021-03-01" (VStr "Company-A") (VStr "Company-B")
      (VInt 19) (VInt 84) = Ok inv /\
    convert_to_pennies inv = Ok (VInt 1984) /\
    pennies_tot inv = VInt 1984.
Proof.
  apply (C2_valid_amounts_construct "2021-03-01" (VStr "Company-A")
           (VStr "Company-B") 19 84); [lia | lia | vm_compute; discriminate].
Defined.

(** The order of the checks, whenever the total can be computed: the type
    of the pounds, the type of the pennies, the signs, the range of the
    pennies, the maximum. *)
Lemma Invoice_init_check_order (today : string) (sup rcp pds pns tot : pyval) :
  convert_to_pennies (Build_Invoice today sup rcp pds pns VNone) = Ok tot ->
  Invoice_init today sup rcp pds pns =
    match as_int pds, as_int pns with
    | None, _ => Raise (InvoiceValidationError (PoundsNotInt (type_name pds)))
    | Some _, None =>
        Raise (InvoiceValidationError (PenniesNotInt (type_name pns)))
    | Some p, Some q =>
        if (p <? 0) || (q <? 0) then
          Raise (InvoiceValidationError NegativeValues)
        else if 99 <? q then Raise (InvoiceValidationError PenniesAbove99)
        else if 20000000000 <? 100 * p + q then
          Raise (InvoiceValidationError (TotalAboveMax pds pns))
        else Ok (Build_Invoice today sup rcp pds pns (VInt (100 * p + q)))
    end.
Proof.
  intros Htot. unfold Invoice_init.
  set (self := Build_Invoice today sup rcp pds pns VNone) in *.
  rewrite Htot. run_bind.
  destruct (as_int pds) as [p|] eqn:Ep.
  - destruct (as_int pns) as [q|] eqn:Eq.
    + rewrite (convert_to_pennies_int self p q Ep Eq) in Htot.
      replace tot with (VInt (100 * p + q)) by congruence.
      rewrite (_check_valid_inputs_int (set_pennies_tot self _) p q
                 (100 * p + q) Ep Eq eq_refl).
      destruct (p <? 0); [reflexivity|]. destruct (q <? 0); [reflexivity|].
      simpl orb; cbv iota.
      destruct (99 <? q); [reflexivity|].
      now destruct (20000000000 <? 100 * p + q).
    + rewrite (_check_valid_inputs_not_int (set_pennies_tot self tot)).
      * simpl. unfold isinstance_int. now rewrite Ep.
      * simpl. unfold isinstance_int. now rewrite Ep, Eq.
  - rewrite (_check_valid_inputs_not_int (set_pennies_tot self tot)).
    + simpl. unfold isinstance_int. now rewrite Ep.
    + simpl. unfold isinstance_int. now rewrite Ep.
Qed.

(** A float amount always lets the total be computed when the other amount
    is a float or an int within the float range, so the type error of the
    checks is the one reported: here the pounds [-1.5], negative as well. *)
Example Invoice_init_negative_float :
  Invoice_init "2021-03-01" (VStr "Company-A") (VStr "Company-B")
    (VFloat (Float.div_Z (-3) 2)) (VInt 0)
  = Raise (InvoiceValidationError (PoundsNotInt "float")).
Proof. reflexivity. Qed.

(** C3, at the input where the code departs from it: the pounds given as
    the string ["10"] with 5 pennies.  The total [100 * "10" + 5] is computed
    before the checks run and raises the built-in [TypeError], so no
    [InvoiceValidationError] is ever raised for this non-integer amount. *)
Theorem C3_str_pounds_raises_TypeError (today : string) (sup rcp : pyval) :
  Invoice_init today sup rcp (VStr "10") (VInt 5) = Raise TypeError /\
  _check_valid_inputs
    (Build_Invoice today sup rcp (VStr "10") (VInt 5) VNone)
  = Raise (InvoiceValidationError (PoundsNotInt "str")).
Proof. split; reflexivity. Qed.

(** C9. The two names are not examined: with valid amounts the constructor
    succeeds whatever the names are and stores them as given, and on any
    amounts at all the outcome does not depend on the names. *)
Theorem C9_names_not_validated (today : string) (sup rcp : pyval) :
  (forall major minor : Z,
     0 <= major -> 0 <= minor <= 99 -> 100 * major + minor <= 20000000000 ->
     exists inv : Invoice,
       Invoice_init today sup rcp (VInt major) (VInt minor) = Ok inv /\
       supplier inv = sup /\ recipient inv = rcp) /\
  (forall (pds pns sup' rcp' : pyval),
     match Invoice_init today sup rcp pds pns with
     | Ok inv =>
         supplier inv = sup /\ recipient inv = rcp /\
         Invoice_init today sup' rcp' pds pns =
           Ok (Build_Invoice today sup' rcp' (pounds inv) (pennies_rem inv)
                 (pennies_tot inv))
     | Raise e => Invoice_init today sup' rcp' pds pns = Raise e
     end).
Proof.
  split.
  - intros major minor Hmajor Hminor Htotal.
    rewrite Invoice_init_int.
    ltb_false.
    simpl orb; cbv iota. eexists; repeat split.
  - intros pds pns sup' rcp'.
    destruct (convert_to_pennies (Build_Invoice today sup rcp pds pns VNone))
      as [tot|e] eqn:Htot.
    + assert (Htot' : convert_to_pennies
                        (Build_Invoice today sup' rcp' pds pns VNone) = Ok tot)
        by exact Htot.
      rewrite (Invoice_init_check_order _ _ _ _ _ _ Htot).
      rewrite (Invoice_init_check_order _ _ _ _ _ _ Htot').
      destruct (as_int pds) as [p|]; [|reflexivity].
      destruct (as_int pns) as [q|]; [|reflexivity].
      destruct ((p <? 0) || (q <? 0)); [reflexivity|].
      destruct (99 <? q); [reflexivity|].
      destruct (20000000000 <? 100 * p + q); [reflexivity|].
      repeat split.
    + assert (Htot' : convert_to_pennies
                        (Build_Invoice today sup' rcp' pds pns VNone) = Raise e)
        by exact Htot.
      unfold Invoice_init.
      change (convert_to_pennies _) with
        (convert_to_pennies (Build_Invoice today sup rcp pds pns VNone)) at 1.
      rewrite Htot. run_bind.
      change (convert_to_pennies _) with
        (convert_to_pennies (Build_Invoice today sup' rcp' pds pns VNone)).
      now rewrite Htot'.
Qed.

(** Names of any type: a number and [None]. *)
Lemma C9_witness_odd_names :
  exists inv : Invoice,
    Invoice_init "2021-03-01" (VInt 7) VNone (VInt 19) (VInt 84) = Ok inv /\
    supplier inv = VInt 7 /\ recipient inv = VNone.
Proof.
  apply (proj1 (C9_names_not_validated "2021-03-01" (VInt 7) VNone) 19 84);
    lia.
Defined.

(** ** The unit tests of the constructor *)

Example test_invoice_negative_penny_amount :
  Invoice_init "2021-03-01" (VStr "Company-A") (VStr "Company-B")
    (VInt 1000) (VInt (-99))
  = Raise (InvoiceValidationError NegativeValues).
Proof. reflexivity. Qed.

Example test_invoice_large_penny_amount :
  Invoice_init "2021-03-01" (VStr "Company-A") (VStr "Company-B")
    (VInt 1000) (VInt 121)
  = Raise (InvoiceValidationError PenniesAbove99).
Proof. reflexivity. Qed.

Example test_invoice_non_integer_pound_amount :
  Invoice_init "2021-03-01" (VStr "Company-A") (VStr "Company-B")
    (VFloat (Float.div_Z 10005 10)) (VInt 12)
  = Raise (InvoiceValidationError (PoundsNotInt "float")).
Proof. reflexivity. Qed.

(** The amount of this test is the float 2.1e10, so it is the type of the
    pounds that is refused; an int total above the maximum is refused by the
    last check. *)
Example test_invoice_amount_too_high :
  Invoice_init "2021-03-01" (VStr "Company-A") (VStr "Company-B")
    (VFloat (Float.of_Z 21000000000)) (VInt 0)
  = Raise (InvoiceValidationError (PoundsNotInt "float")) /\
  Invoice_init "2021-03-01" (VStr "Company-A") (VStr "Company-B")
    (VInt 200000000) (VInt 1)
  = Raise (InvoiceValidationError
             (TotalAboveMax (VInt 200000000) (VInt 1))).
Proof. split; reflexivity. Qed.

(** ** The rounding of the float operations *)

(** The number of binary digits that the float operations count. *)
Lemma digits2_pos_log2 (p : positive) :
  Z.pos (digits2_pos p) = Z.log2 (Z.pos p) + 1.
Proof.
  assert (H : forall q, digits2_pos q = Pos.size q)
    by (induction q as [q IH|q IH|]; cbn; now rewrite ?IH).
  rewrite H. destruct p as [q|q|]; cbn [Z.log2 Pos.size];
    rewrite ?Pos2Z.inj_succ; lia.
Qed.

Lemma rne_cases (mx : Z) (l : location) :
  round_nearest_even mx l = mx \/
  (round_nearest_even mx l = mx + 1 /\ l <> loc_Exact).
Proof.
  destruct l as [|[| |]]; cbn [round_nearest_even].
  - now left.
  - destruct (Z.even mx); [now left | right; split; [reflexivity|discriminate]].
  - now left.
  - right. split; [reflexivity|discriminate].
Qed.

Lemma loc_of_shr_record_of_loc (m : Z) (l : location) :
  loc_of_shr_record (shr_record_of_loc m l) = l /\
  shr_m (shr_record_of_loc m l) = m.
Proof. destruct l as [|[| |]]; now split. Qed.

Lemma fexp_normal (e : Z) :
  -1021 <= e -> fexp Float.prec Float.emax e = e - 53.
Proof.
  intros He. unfold fexp, emin, Float.prec, Float.emax.
  change IntDef.Z.max with Z.max. change IntDef.Z.sub with Z.sub. lia.
Qed.

Lemma Zdigits2_log2 (m : positive) : Zdigits2 (Z.pos m) = Z.log2 (Z.pos m) + 1.
Proof. cbn [Zdigits2]. apply digits2_pos_log2. Qed.

Lemma shr_fexp_keep (m : positive) (ex : Z) (l : location) :
  Z.log2 (Z.pos m) = 52 -> -1000 <= ex ->
  shr_fexp Float.prec Float.emax (Z.pos m) ex l
  = (shr_record_of_loc (Z.pos m) l, ex).
Proof.
  intros Hm Hex. unfold shr_fexp. rewrite Zdigits2_log2, Hm.
  change IntDef.Z.add with Z.add. change IntDef.Z.sub with Z.sub.
  rewrite fexp_normal by lia.
  replace (52 + 1 + ex - 53 - ex) with 0 by lia. reflexivity.
Qed.

Lemma shr_fexp_one (m : positive) (ex : Z) (l : location) :
  Z.log2 (Z.pos m) = 53 -> -1000 <= ex ->
  shr_fexp Float.prec Float.emax (Z.pos m) ex l
  = (shr_1 (shr_record_of_loc (Z.pos m) l), ex + 1).
Proof.
  intros Hm Hex. unfold shr_fexp. rewrite Zdigits2_log2, Hm.
  change IntDef.Z.add with Z.add. change IntDef.Z.sub with Z.sub.
  rewrite fexp_normal by lia.
  replace (53 + 1 + ex - 53 - ex) with 1 by lia. reflexivity.
Qed.

(** The last step of the rounding: a mantissa of 53 bits is kept, the
    mantissa [2^53] that a carry gives is halved. *)
Lemma round_stage2 (M : positive) (ex : Z) :
  2 ^ 52 <= Z.pos M <= 2 ^ 53 -> -1000 <= ex <= 960 ->
  exists (m : positive) (c : Z),
    (let '(mrs, e) :=
       shr_fexp Float.prec Float.emax (Z.pos M) ex loc_Exact in
     match shr_m mrs with
     | 0 => S754_zero false
     | Z.pos m =>
         if e <=? Float.emax - Float.prec
         then S754_finite false m e else S754_infinity false
     | Z.neg _ => S754_nan
     end) = S754_finite false m (ex + c) /\
    (c = 0 \/ c = 1 /\ Z.pos M = 2 ^ 53) /\
    Z.pos m * 2 ^ c = Z.pos M.
Proof.
  intros HM Hex.
  destruct (Z.eq_dec (Z.pos M) (2 ^ 53)) as [E|E].
  - injection E as ->. exists (2 ^ 52)%positive, 1.
    rewrite shr_fexp_one by (try reflexivity; lia).
    cbn [shr_record_of_loc shr_1 shr_m Pos.pow Pos.iter Pos.mul].
    replace (ex + 1 <=? Float.emax - Float.prec) with true
      by (symmetry; apply Z.leb_le; unfold Float.emax, Float.prec; lia).
    repeat split; [right; split; reflexivity].
  - assert (HL : Z.log2 (Z.pos M) = 52).
    { apply Z.log2_unique; [lia|]. change (2 ^ Z.succ 52) with (2 ^ 53). lia. }
    exists M, 0. rewrite shr_fexp_keep by (assumption || lia).
    cbn [shr_record_of_loc shr_m].
    replace (ex <=? Float.emax - Float.prec) with true
      by (symmetry; apply Z.leb_le; unfold Float.emax, Float.prec; lia).
    rewrite Z.add_0_r. repeat split; [now left | lia].
Qed.

(** ** Rounding half down *)

Lemma Qle_bool_frac (n : Z) (d : positive) :
  Qle_bool ((n # d) - inject_Z (Qfloor (n # d))) (1 # 2)
  = (2 * (n mod Z.pos d) <=? Z.pos d).
Proof.
  unfold Qle_bool, Qminus, Qplus, Qopp, inject_Z, Qfloor.
  cbn [Qnum Qden].
  rewrite Z.mod_eq by discriminate.
  rewrite Pos.mul_1_r.
  apply eq_true_iff_eq. rewrite !Z.leb_le. lia.
Qed.

Lemma half_down_inject_Z (z : Z) : half_down (inject_Z z) = z.
Proof.
  unfold half_down, inject_Z. rewrite Qle_bool_frac.
  rewrite Z.mod_1_r. cbn [Z.mul Z.leb Z.compare].
  unfold Qfloor. cbn [Qnum Qden]. now rewrite Z.div_1_r.
Qed.

(** The fractional part of a non-negative float against one half. *)
Lemma leb_fmod1_half (m : positive) (k r : positive) :
  Z.pos m mod 2 ^ Z.pos k = Z.pos r ->
  Float.leb (S754_finite false r (Z.neg k)) Float.half
  = (2 * (Z.pos m mod Z.pos (2 ^ k)) <=? Z.pos (2 ^ k)).
Proof.
  intros Hr. rewrite Pos2Z.inj_pow, Hr.
  unfold Float.leb, Float.compare, Float.half, Float.to_Q, Qcompare.
  cbn [Qnum Qden cond_Zopp].
  rewrite Z.leb_compare.
  change (Z.pos (2 ^ 53)) with (2 * 4503599627370496).
  change (Z.pos 4503599627370496 * Z.pos (2 ^ k))
    with (4503599627370496 * Z.pos (2 ^ k)).
  rewrite Pos2Z.inj_pow.
  replace (Z.pos r * (2 * 4503599627370496))
    with (2 * Z.pos r * 4503599627370496) by ring.
  replace (4503599627370496 * 2 ^ Z.pos k)
    with (2 ^ Z.pos k * 4503599627370496) by ring.
  rewrite <- (Zmult_compare_compat_r (2 * Z.pos r) (2 ^ Z.pos k)
                4503599627370496) by reflexivity.
  now destruct (2 * Z.pos r ?= 2 ^ Z.pos k).
Qed.

Lemma py_le_float (x y : Float.float) :
  py_le (VFloat x) (VFloat y) = Ok (Float.leb x y).
Proof. reflexivity. Qed.

(** On a finite float that is not negative, the function is rounding half
    down of its exact value. *)
Lemma round_half_down_nonneg (x : Float.float) :
  nonneg_finite x = true ->
  round_half_down (VFloat x) = Ok (VInt (half_down (Float.to_Q x))).
Proof.
  destruct x as [s|s| |s m e]; try discriminate.
  - intros _. reflexivity.
  - destruct s; [discriminate|]. intros _.
    destruct e as [|e|k].
    + unfold Float.to_Q. rewrite half_down_inject_Z. reflexivity.
    + unfold Float.to_Q. rewrite half_down_inject_Z. reflexivity.
    + unfold round_half_down, py_mod1, Float.rem1, Float.fmod1. run_bind.
      unfold half_down, Float.to_Q. cbn [cond_Zopp].
      rewrite Qle_bool_frac.
      destruct (Z.pos m mod 2 ^ Z.pos k) as [|r|r] eqn:Hr.
      * rewrite Pos2Z.inj_pow, Hr.
        change (py_le (VFloat (S754_zero false)) (VFloat Float.half))
          with (Ok true).
        replace (2 * 0 <=? 2 ^ Z.pos k) with true
          by (symmetry; apply Z.leb_le;
              pose proof (Z.pow_pos_nonneg 2 (Z.pos k)); lia).
        unfold math_floor, Float.floor, Qfloor. cbn [Qnum Qden cond_Zopp].
        now rewrite Pos2Z.inj_pow.
      * rewrite py_le_float, (leb_fmod1_half m k r Hr).
        destruct (2 * (Z.pos m mod Z.pos (2 ^ k)) <=? Z.pos (2 ^ k)).
        -- unfold math_floor, Float.floor, Qfloor. cbn [Qnum Qden cond_Zopp].
           now rewrite Pos2Z.inj_pow.
        -- unfold math_ceil, Float.ceil, Qceiling, Qfloor, Qopp.
           cbn [Qnum Qden cond_Zopp negb].
           now rewrite Pos2Z.inj_pow.
      * exfalso.
        assert (0 <= Z.pos m mod 2 ^ Z.pos k)
          by (apply Z.mod_pos_bound; now apply Z.pow_pos_nonneg).
        rewrite Hr in H. lia.
Qed.

Lemma round_half_down_int (z : Z) : round_half_down (VInt z) = Ok (VInt z).
Proof.
  unfold round_half_down, py_mod1. run_bind. now rewrite Z.mod_1_r.
Qed.

(** *** Negative floats *)

(** A positive float against one half. *)
Lemma leb_half (m p : positive) :
  Float.leb (S754_finite false m (Z.neg p)) Float.half
  = (2 * Z.pos m <=? 2 ^ Z.pos p).
Proof.
  unfold Float.leb, Float.compare, Float.half, Float.to_Q, Qcompare.
  cbn [Qnum Qden cond_Zopp].
  rewrite Z.leb_compare.
  change (Z.pos (2 ^ 53)) with (2 * 4503599627370496).
  change (Z.pos 4503599627370496 * Z.pos (2 ^ p))
    with (4503599627370496 * Z.pos (2 ^ p)).
  rewrite Pos2Z.inj_pow.
  replace (Z.pos m * (2 * 4503599627370496))
    with (2 * Z.pos m * 4503599627370496) by ring.
  replace (4503599627370496 * 2 ^ Z.pos p)
    with (2 ^ Z.pos p * 4503599627370496) by ring.
  rewrite <- (Zmult_compare_compat_r (2 * Z.pos m) (2 ^ Z.pos p)
                4503599627370496) by reflexivity.
  now destruct (2 * Z.pos m ?= 2 ^ Z.pos p).
Qed.

(** Shifting a mantissa to the left and to the right. *)
Lemma iter_xO (m d : positive) :
  Z.pos (PosDef.Pos.iter xO m d) = Z.pos m * 2 ^ Z.pos d.
Proof.
  change (PosDef.Pos.iter xO m d) with (shift_pos d m).
  rewrite shift_pos_correct. change (Z.pow_pos 2 d) with (2 ^ Z.pos d). ring.
Qed.

Lemma shr_1_m (mrs : shr_record) :
  0 <= shr_m mrs -> shr_m (shr_1 mrs) = shr_m mrs / 2.
Proof.
  destruct mrs as [m r s]. cbn [shr_m]. intros Hm.
  destruct m as [|[p|p|]|p]; cbn [shr_1 shr_m]; try lia.
  - reflexivity.
  - rewrite Pos2Z.inj_xI. apply Z.div_unique with 1; lia.
  - rewrite Pos2Z.inj_xO. apply Z.div_unique with 0; lia.
  - reflexivity.
Qed.

Lemma iter_shr_1_m (p : positive) (mrs : shr_record) :
  0 <= shr_m mrs ->
  shr_m (iter_pos shr_1 p mrs) = shr_m mrs / 2 ^ Z.pos p.
Proof.
  revert mrs.
  induction p as [p IH|p IH|]; intros mrs Hm; cbn [iter_pos].
  - assert (H1 : 0 <= shr_m (shr_1 mrs))
      by (rewrite shr_1_m by assumption; apply Z.div_pos; lia).
    assert (H2 : 0 <= shr_m (iter_pos shr_1 p (shr_1 mrs)))
      by (rewrite IH by assumption; apply Z.div_pos;
          [assumption | apply Z.pow_pos_nonneg; lia]).
    rewrite IH, IH, shr_1_m by assumption.
    assert (0 < 2 ^ Z.pos p) by (apply Z.pow_pos_nonneg; lia).
    rewrite !Z.div_div by lia.
    f_equal. replace (Z.pos p~1) with (1 + Z.pos p + Z.pos p) by lia.
    rewrite !Z.pow_add_r by lia. ring.
  - assert (H2 : 0 <= shr_m (iter_pos shr_1 p mrs))
      by (rewrite IH by assumption; apply Z.div_pos;
          [assumption | apply Z.pow_pos_nonneg; lia]).
    rewrite IH, IH by assumption.
    assert (0 < 2 ^ Z.pos p) by (apply Z.pow_pos_nonneg; lia).
    rewrite !Z.div_div by lia.
    f_equal. replace (Z.pos p~0) with (Z.pos p + Z.pos p) by lia.
    rewrite !Z.pow_add_r by lia. ring.
  - now apply shr_1_m.
Qed.

(** A mantissa of exactly 53 bits is returned as it is. *)
Lemma binary_round_aux_exact (M : positive) (ex : Z) :
  2 ^ 52 <= Z.pos M < 2 ^ 53 -> -1000 <= ex <= 960 ->
  binary_round_aux Float.prec Float.emax false (Z.pos M) ex loc_Exact
  = S754_finite false M ex.
Proof.
  intros HM Hex.
  assert (HL : Z.log2 (Z.pos M) = 52).
  { apply Z.log2_unique; [lia|]. change (2 ^ Z.succ 52) with (2 ^ 53). lia. }
  unfold binary_round_aux.
  rewrite shr_fexp_keep by (assumption || lia).
  cbn [shr_record_of_loc shr_m loc_of_shr_record round_nearest_even].
  rewrite shr_fexp_keep by (assumption || lia).
  cbn [shr_record_of_loc shr_m].
  replace (ex <=? Float.emax - Float.prec) with true; [reflexivity|].
  symmetry. apply Z.leb_le. unfold Float.emax, Float.prec. lia.
Qed.

Lemma shl_align_le (m : positive) (ex ex' : Z) :
  ex' <= ex ->
  Z.pos (fst (shl_align m ex ex')) = Z.pos m * 2 ^ (ex - ex') /\
  snd (shl_align m ex ex') = ex'.
Proof.
  intros Hle. unfold shl_align. change IntDef.Z.sub with Z.sub.
  destruct (ex' - ex) as [|d|d] eqn:Hd; cbn [fst snd]; try lia.
  - replace (ex - ex') with 0 by lia. rewrite Z.pow_0_r. split; lia.
  - rewrite iter_xO. replace (ex - ex') with (Z.pos d) by lia. now split.
Qed.

Lemma shl_align_ge (m : positive) (ex ex' : Z) :
  ex <= ex' -> shl_align m ex ex' = (m, ex).
Proof.
  intros Hle. unfold shl_align. change IntDef.Z.sub with Z.sub.
  destruct (ex' - ex) as [|d|d] eqn:Hd; try reflexivity. lia.
Qed.

(** The sum of two floats of opposite signs, as the integer that is
    rounded. *)
Lemma add_one_eq (r k : positive) :
  Z.pos r < 2 ^ Z.pos k ->
  exists S : positive,
    Float.add (S754_finite true r (Z.neg k)) Float.one
    = binary_round Float.prec Float.emax false S (Z.min (Z.neg k) (-52)) /\
    Z.pos S * 2 ^ Z.pos k
    = (2 ^ Z.pos k - Z.pos r) * 2 ^ (- Z.min (Z.neg k) (-52)).
Proof.
  intros Hr. unfold Float.add, Float.one, SFadd.
  change IntDef.Z.min with Z.min. change IntDef.Z.add with Z.add.
  set (ez := Z.min (Z.neg k) (-52)).
  assert (Hez : ez <= Z.neg k /\ ez <= -52) by (unfold ez; lia).
  destruct (shl_align_le r (Z.neg k) ez ltac:(lia)) as [H1 _].
  destruct (shl_align_le 4503599627370496 (-52) ez ltac:(lia)) as [H2 _].
  cbn [cond_Zopp]. rewrite H1, H2.
  assert (Hk : 0 < 2 ^ Z.pos k) by (apply Z.pow_pos_nonneg; lia).
  assert (Ha : 2 ^ (- ez) = 2 ^ Z.pos k * 2 ^ (Z.neg k - ez))
    by (rewrite <- Z.pow_add_r by lia; f_equal; lia).
  assert (Hb : 2 ^ (- ez) = 4503599627370496 * 2 ^ (-52 - ez)).
  { change 4503599627370496 with (2 ^ 52).
    rewrite <- Z.pow_add_r by lia. f_equal. lia. }
  assert (Hp : 0 < 2 ^ (Z.neg k - ez)) by (apply Z.pow_pos_nonneg; lia).
  set (A := 2 ^ (Z.neg k - ez)) in *.
  change (Z.pos 4503599627370496) with 4503599627370496.
  rewrite <- Hb.
  assert (Hsum : - (Z.pos r * A) + 2 ^ (- ez) = (2 ^ Z.pos k - Z.pos r) * A)
    by (rewrite Ha; ring).
  assert (Hpos : 0 < - (Z.pos r * A) + 2 ^ (- ez)) by (rewrite Hsum; nia).
  destruct (- (Z.pos r * A) + 2 ^ (- ez)) as [|S|S] eqn:HS; try lia.
  exists S. split; [reflexivity|].
  rewrite Hsum, Ha. ring.
Qed.

(** With at most 53 binary places the sum [md + 1.0] is exact, and it is
    at most one half when the remainder is at least one half. *)
Lemma add_one_large (r k : positive) :
  Z.pos k <= 53 -> Z.pos r < 2 ^ Z.pos k ->
  Float.leb (Float.add (S754_finite true r (Z.neg k)) Float.one) Float.half
  = (2 ^ Z.pos k <=? 2 * Z.pos r).
Proof.
  intros Hk Hr.
  destruct (add_one_eq r k Hr) as (S & -> & HS).
  set (ez := Z.min (Z.neg k) (-52)) in *.
  assert (Hez : -53 <= ez <= -52 /\ ez <= Z.neg k) by (unfold ez; lia).
  assert (HPk : 0 < 2 ^ Z.pos k) by (apply Z.pow_pos_nonneg; lia).
  assert (HPE : 0 < 2 ^ (- ez)) by (apply Z.pow_pos_nonneg; lia).
  assert (HSE : Z.pos S < 2 ^ (- ez)) by nia.
  pose proof (Z.log2_spec (Z.pos S) ltac:(lia)) as HL.
  pose proof (Z.log2_nonneg (Z.pos S)) as HL0.
  assert (HLE : Z.log2 (Z.pos S) < - ez)
    by (apply Z.log2_lt_pow2; lia).
  unfold binary_round. rewrite digits2_pos_log2.
  set (L := Z.log2 (Z.pos S)) in *.
  change IntDef.Z.add with Z.add.
  rewrite fexp_normal by lia.
  destruct (shl_align_le S ez (L + 1 + ez - 53) ltac:(lia)) as [H1 H2].
  destruct (shl_align S ez (L + 1 + ez - 53)) as [mz e'].
  cbn [fst snd] in H1, H2. subst e'.
  replace (ez - (L + 1 + ez - 53)) with (52 - L) in H1 by lia.
  assert (HPL : 0 < 2 ^ (52 - L)) by (apply Z.pow_pos_nonneg; lia).
  assert (H52 : 2 ^ 52 = 2 ^ L * 2 ^ (52 - L))
    by (rewrite <- Z.pow_add_r by lia; f_equal; lia).
  assert (H53 : 2 ^ 53 = 2 ^ Z.succ L * 2 ^ (52 - L))
    by (rewrite <- Z.pow_add_r by lia; f_equal; lia).
  rewrite binary_round_aux_exact by (try rewrite H1, H52, H53; nia).
  replace (L + 1 + ez - 53) with (Z.neg (Z.to_pos (52 - L - ez)))
    by (rewrite <- Pos2Z.opp_pos, Z2Pos.id; lia).
  rewrite leb_half, Z2Pos.id by lia.
  replace (52 - L - ez) with ((52 - L) + - ez) by lia.
  rewrite Z.pow_add_r by lia. rewrite H1.
  set (A := 2 ^ (52 - L)) in *. set (B := 2 ^ (- ez)) in *.
  set (K := 2 ^ Z.pos k) in *.
  apply eq_true_iff_eq. rewrite !Z.leb_le.
  split; intros H.
  - assert (2 * Z.pos S <= B) by nia.
    assert (2 * (Z.pos S * K) <= B * K) by nia.
    rewrite HS in *. nia.
  - assert (2 * (K - Z.pos r) * B <= K * B) by nia.
    assert (2 * (Z.pos S * K) <= B * K) by (rewrite HS; lia).
    assert (2 * Z.pos S <= B) by nia.
    nia.
Qed.

(** With more binary places the sum lies between 1/2 and 1 and is rounded
    to 53 places. *)
Lemma shr_fexp_shift (S k : positive) :
  Z.log2 (Z.pos S) = Z.pos k - 1 -> 54 <= Z.pos k ->
  shr_fexp Float.prec Float.emax (Z.pos S) (Z.neg k) loc_Exact
  = (iter_pos shr_1 (Z.to_pos (Z.pos k - 53))
       (shr_record_of_loc (Z.pos S) loc_Exact), -53).
Proof.
  intros HL Hk. unfold shr_fexp.
  rewrite Zdigits2_log2, HL.
  change IntDef.Z.add with Z.add. change IntDef.Z.sub with Z.sub.
  replace (Z.pos k - 1 + 1 + Z.neg k) with 0 by lia.
  change (fexp Float.prec Float.emax 0) with (-53).
  replace (-53 - Z.neg k) with (Z.pos (Z.to_pos (Z.pos k - 53)))
    by (rewrite Z2Pos.id; lia).
  cbn [shr]. change IntDef.Z.add with Z.add.
  f_equal. rewrite Z2Pos.id by lia. lia.
Qed.

(** ... and the rounded sum stays above one half when the exact one is at
    least [1/2 + 2^-53]. *)
Lemma add_one_small (r k : positive) :
  54 <= Z.pos k -> Z.pos r + 2 ^ (Z.pos k - 53) <= 2 ^ (Z.pos k - 1) ->
  Float.leb (Float.add (S754_finite true r (Z.neg k)) Float.one) Float.half
  = false.
Proof.
  intros Hk Hr.
  assert (HPk : 2 ^ Z.pos k = 2 * 2 ^ (Z.pos k - 1)).
  { replace (Z.pos k) with (Z.succ (Z.pos k - 1)) at 1 by lia.
    apply Z.pow_succ_r. lia. }
  assert (HPs : 0 < 2 ^ (Z.pos k - 53)) by (apply Z.pow_pos_nonneg; lia).
  assert (HP1 : 2 ^ (Z.pos k - 1) = 2 ^ 52 * 2 ^ (Z.pos k - 53))
    by (rewrite <- Z.pow_add_r by lia; f_equal; lia).
  destruct (add_one_eq r k ltac:(lia)) as (S & -> & HS).
  replace (Z.min (Z.neg k) (-52)) with (Z.neg k) in * by lia.
  change (- Z.neg k) with (Z.pos k) in HS.
  assert (HS' : Z.pos S = 2 ^ Z.pos k - Z.pos r) by nia.
  clear HS.
  assert (HL : Z.log2 (Z.pos S) = Z.pos k - 1).
  { apply Z.log2_unique; [lia|].
    replace (Z.succ (Z.pos k - 1)) with (Z.pos k) by lia. lia. }
  unfold binary_round. rewrite digits2_pos_log2, HL.
  change IntDef.Z.add with Z.add.
  replace (Z.pos k - 1 + 1 + Z.neg k) with 0 by lia.
  rewrite shl_align_ge by (cbn; lia).
  unfold binary_round_aux. rewrite (shr_fexp_shift S k) by assumption.
  rewrite iter_shr_1_m by (cbn; lia).
  rewrite Z2Pos.id by lia. cbn [shr_record_of_loc shr_m].
  set (M1 := Z.pos S / 2 ^ (Z.pos k - 53)).
  assert (HM1 : 2 ^ 52 + 1 <= M1 < 2 ^ 53).
  { unfold M1. split.
    - apply Z.div_le_lower_bound; lia.
    - apply Z.div_lt_upper_bound; [lia|].
      replace (2 ^ 53) with (2 * 2 ^ 52) by reflexivity. lia. }
  change (2 ^ 52) with 4503599627370496 in HM1.
  change (2 ^ 53) with 9007199254740992 in HM1.
  match goal with
  | |- context [round_nearest_even M1 ?l] =>
      destruct (rne_cases M1 l) as [-> | [-> _]]
  end.
  - destruct M1 as [|M|M]; try lia.
    destruct (round_stage2 M (-53)) as (m & c & -> & Hc & Hm);
      [change (2 ^ 52) with 4503599627370496;
       change (2 ^ 53) with 9007199254740992; lia | lia |].
    destruct Hc as [-> | [-> Hc]].
    + change (-53 + 0) with (Z.neg 53). rewrite leb_half.
      apply Z.leb_gt. change (2 ^ Z.pos 53) with 9007199254740992.
      rewrite Z.pow_0_r in Hm. lia.
    + change (-53 + 1) with (Z.neg 52). rewrite leb_half.
      apply Z.leb_gt. change (2 ^ Z.pos 52) with 4503599627370496.
      change (2 ^ 1) with 2 in Hm. lia.
  - destruct M1 as [|M|M]; try lia.
    change (Z.pos M + 1) with (Z.pos (M + 1)).
    destruct (round_stage2 (M + 1) (-53)) as (m & c & -> & Hc & Hm);
      [change (2 ^ 52) with 4503599627370496;
       change (2 ^ 53) with 9007199254740992; lia | lia |].
    rewrite Pos2Z.inj_add in Hm.
    destruct Hc as [-> | [-> Hc]].
    + change (-53 + 0) with (Z.neg 53). rewrite leb_half.
      apply Z.leb_gt. change (2 ^ Z.pos 53) with 9007199254740992.
      rewrite Z.pow_0_r in Hm. lia.
    + change (-53 + 1) with (Z.neg 52). rewrite leb_half.
      apply Z.leb_gt. change (2 ^ Z.pos 52) with 4503599627370496.
      change (2 ^ 1) with 2 in Hm. lia.
Qed.

(** The mantissa of a binary64 number has at most 53 bits. *)
Lemma bounded_53 (m : positive) (e : Z) :
  bounded Float.prec Float.emax m e = true -> Z.pos m < 2 ^ 53.
Proof.
  unfold bounded, canonical_mantissa. intros H.
  apply andb_true_iff in H. destruct H as [H _].
  change IntDef.Z.eqb with Z.eqb in H. apply Z.eqb_eq in H.
  rewrite digits2_pos_log2 in H.
  unfold fexp, emin, Float.prec, Float.emax in H.
  change IntDef.Z.max with Z.max in H. change IntDef.Z.sub with Z.sub in H.
  change IntDef.Z.add with Z.add in H.
  apply Z.log2_lt_pow2; lia.
Qed.

(** On a negative float other than -0.49999999999999994, the function is
    rounding half down of the exact value. *)
Lemma round_half_down_neg (m k : positive) :
  Z.pos m < 2 ^ 53 ->
  S754_finite true m (Z.neg k) <> just_above_minus_half ->
  round_half_down (VFloat (S754_finite true m (Z.neg k)))
  = Ok (VInt (half_down (Float.to_Q (S754_finite true m (Z.neg k))))).
Proof.
  intros Hm Hne.
  assert (HPk : 0 < 2 ^ Z.pos k) by (apply Z.pow_pos_nonneg; lia).
  pose proof (Z.mod_pos_bound (Z.pos m) (2 ^ Z.pos k) HPk) as Hmod.
  unfold round_half_down, py_mod1, Float.rem1, Float.fmod1. run_bind.
  unfold half_down, Float.to_Q. cbn [cond_Zopp].
  rewrite Qle_bool_frac. rewrite Pos2Z.inj_pow.
  change (- Z.pos m) with (Z.neg m).
  destruct (Z.pos m mod 2 ^ Z.pos k) as [|r|r] eqn:Hr; [| |lia].
  - change (py_le (VFloat (S754_zero false)) (VFloat Float.half))
      with (Ok true).
    change (Z.neg m) with (- Z.pos m).
    rewrite Z.mod_opp_l_z by lia.
    replace (2 * 0 <=? 2 ^ Z.pos k) with true
      by (symmetry; apply Z.leb_le; lia).
    unfold math_floor, Float.floor, Qfloor. cbn [Qnum Qden cond_Zopp].
    now rewrite Pos2Z.inj_pow.
  - rewrite py_le_float.
    assert (Hfrac : Z.neg m mod 2 ^ Z.pos k = 2 ^ Z.pos k - Z.pos r).
    { change (Z.neg m) with (- Z.pos m).
      rewrite Z.mod_opp_l_nz by lia. now rewrite Hr. }
    rewrite Hfrac.
    assert (Hleb : Float.leb
                     (Float.add (S754_finite true r (Z.neg k)) Float.one)
                     Float.half
                   = (2 * (2 ^ Z.pos k - Z.pos r) <=? 2 ^ Z.pos k)).
    { destruct (Z_le_gt_dec (Z.pos k) 53) as [Hk|Hk].
      - rewrite add_one_large by lia.
        apply eq_true_iff_eq. rewrite !Z.leb_le. lia.
      - assert (Hrm : Z.pos r <= Z.pos m).
        { rewrite <- Hr. apply Z.mod_le; lia. }
        assert (HP1 : 2 ^ (Z.pos k - 1) = 2 ^ 52 * 2 ^ (Z.pos k - 53))
          by (rewrite <- Z.pow_add_r by lia; f_equal; lia).
        assert (HPK : 2 ^ Z.pos k = 2 * 2 ^ (Z.pos k - 1)).
        { replace (Z.pos k) with (Z.succ (Z.pos k - 1)) at 1 by lia.
          apply Z.pow_succ_r. lia. }
        assert (HPs : 2 <= 2 ^ (Z.pos k - 53)).
        { change 2 with (2 ^ 1) at 1. apply Z.pow_le_mono_r; lia. }
        change (2 ^ 53) with 9007199254740992 in Hm.
        change (2 ^ 52) with 4503599627370496 in HP1.
        rewrite add_one_small.
        + symmetry. apply Z.leb_gt. lia.
        + lia.
        + destruct (Z.eq_dec (Z.pos k) 54) as [E|E].
          * rewrite HP1, E. change (2 ^ (54 - 53)) with 2.
            assert (Z.pos m <> 9007199254740991).
            { intros Em. apply Hne. injection E as ->. injection Em as ->.
              reflexivity. }
            lia.
          * assert (4 <= 2 ^ (Z.pos k - 53)).
            { change 4 with (2 ^ 2). apply Z.pow_le_mono_r; lia. }
            lia. }
    rewrite Hleb.
    destruct (2 * (2 ^ Z.pos k - Z.pos r) <=? 2 ^ Z.pos k).
    + unfold math_floor, Float.floor, Qfloor. cbn [Qnum Qden cond_Zopp].
      now rewrite Pos2Z.inj_pow.
    + unfold math_ceil, Float.ceil, Qceiling, Qfloor, Qopp.
      cbn [Qnum Qden cond_Zopp negb].
      now rewrite Pos2Z.inj_pow.
Qed.

(** C1, as the code has it.  On every finite binary64 float other than
    -0.49999999999999994, and on every int, the function returns the floor
    when the exact fractional part is at most 0.5 and the ceiling when it is
    above; at -0.49999999999999994 it returns the floor, -1; the inputs
    10.0, 10.2, 10.5, 10.5000001 and 10.8 give 10, 10, 10, 11 and 11. *)
Theorem C1_round_half_down :
  (forall x : Float.float,
     Float.is_finite x = true ->
     valid_binary Float.prec Float.emax x = true ->
     x <> just_above_minus_half ->
     round_half_down (VFloat x) = Ok (VInt (half_down (Float.to_Q x)))) /\
  (forall z : Z,
     round_half_down (VInt z) = Ok (VInt (half_down (inject_Z z)))) /\
  round_half_down (VFloat just_above_minus_half)
    = Ok (VInt (Qfloor (Float.to_Q just_above_minus_half))) /\
  map round_half_down test_values = expected_results.
Proof.
  split; [|split; [|split]].
  - intros x Hfin Hvalid Hne.
    destruct x as [s|s| |s m e]; try discriminate.
    + now apply round_half_down_nonneg.
    + destruct s; [|now apply round_half_down_nonneg].
      destruct e as [|e|k].
      * unfold Float.to_Q. rewrite half_down_inject_Z. reflexivity.
      * unfold Float.to_Q. rewrite half_down_inject_Z. reflexivity.
      * apply round_half_down_neg; [|exact Hne].
        exact (bounded_53 m (Z.neg k) Hvalid).
  - intros z. rewrite half_down_inject_Z. apply round_half_down_int.
  - vm_compute. reflexivity.
  - vm_compute. reflexivity.
Qed.

(** The mean of the unit test, 650000 / 3, rounds up to 216667, and -10.5
    rounds down to -11. *)
Lemma C1_witness_both_signs :
  valid_binary Float.prec Float.emax (Float.div_Z (-105) 10) = true /\
  round_half_down (VFloat (Float.div_Z 650000 3))
    = Ok (VInt (half_down (Float.to_Q (Float.div_Z 650000 3)))) /\
  round_half_down (VFloat (Float.div_Z (-105) 10))
    = Ok (VInt (half_down (Float.to_Q (Float.div_Z (-105) 10)))) /\
  half_down (Float.to_Q (Float.div_Z 650000 3)) = 216667 /\
  half_down (Float.to_Q (Float.div_Z (-105) 10)) = -11.
Proof.
  split; [reflexivity|].
  split; [|split; [|split]].
  - apply (proj1 C1_round_half_down (Float.div_Z 650000 3));
      [reflexivity | reflexivity | vm_compute; discriminate].
  - apply (proj1 C1_round_half_down (Float.div_Z (-105) 10));
      [reflexivity | reflexivity | vm_compute; discriminate].
  - vm_compute. reflexivity.
  - vm_compute. reflexivity.
Defined.

(** C1 as stated fails on a negative float.  At -0.49999999999999994 the
    exact fractional part is above one half, so the claimed result is the
    ceiling, 0; the float [x % 1] is the sum [x + 1.0] rounded to exactly
    0.5, and the function returns the floor, -1. *)
Lemma C1_counterexample_negative_float :
  valid_binary Float.prec Float.emax just_above_minus_half = true /\
  Float.rem1 just_above_minus_half = Float.half /\
  round_half_down (VFloat just_above_minus_half) = Ok (VInt (-1)) /\
  Qle_bool (Float.to_Q just_above_minus_half
            - inject_Z (Qfloor (Float.to_Q just_above_minus_half))) (1 # 2)
    = false /\
  Qceiling (Float.to_Q just_above_minus_half) = 0 /\
  round_half_down (VFloat just_above_minus_half)
    <> Ok (VInt (half_down (Float.to_Q just_above_minus_half))).
Proof.
  repeat split; try (vm_compute; reflexivity).
  vm_compute. discriminate.
Qed.

(** ** The statistics of one and of no amount *)

Lemma mean_single (z : Z) : statistics.mean [VInt z] = Ok (VInt z).
Proof.
  unfold statistics.mean. cbn [statistics.int_data option_map List.length].
  change (Z.of_nat 1) with 1. cbn [Z.ltb Z.compare].
  unfold statistics.sum. cbn [fold_right].
  rewrite Z.mod_1_r, Z.div_1_r, Z.add_0_r. reflexivity.
Qed.

Lemma median_single (z : Z) : statistics.median [VInt z] = Ok (VInt z).
Proof. reflexivity. Qed.

(** C6. With no invoice stored, the mean and the median raise the error of
    the statistics function: the amounts handed over are the empty list, on
    which [mean] and [median] raise [StatisticsError], and the two methods
    pass it on. *)
Theorem C6_empty_statistics_error (self : InvoiceStats) :
  invoice_list self = [] ->
  invoice_amounts self = Ok [] /\
  statistics.mean [] = Raise StatisticsError /\
  statistics.median [] = Raise StatisticsError /\
  get_mean self = Raise StatisticsError /\
  get_median self = Raise StatisticsError.
Proof.
  intros Hnil. unfold get_mean, get_median, invoice_amounts.
  rewrite Hnil. repeat split.
Qed.

Lemma C6_witness_after_clear :
  get_mean (snd (clear (Build_InvoiceStats [] 0))) = Raise StatisticsError /\
  get_median (snd (clear (Build_InvoiceStats [] 0))) = Raise StatisticsError.
Proof.
  pose proof (C6_empty_statistics_error
                (snd (clear (Build_InvoiceStats [] 0))) eq_refl) as H.
  split; apply H.
Defined.

(** C10. With exactly one constructed invoice stored, the mean and the
    median are both the total of that invoice, an int that the rounding
    leaves as it is. *)
Theorem C10_single_record (today : string) (sup rcp pds pns : pyval)
    (inv : Invoice) (self : InvoiceStats) :
  Invoice_init today sup rcp pds pns = Ok inv ->
  invoice_list self = [OInvoice inv] ->
  exists z : Z,
    pennies_tot inv = VInt z /\
    get_mean self = Ok (VInt z) /\
    get_median self = Ok (VInt z).
Proof.
  intros Hinit Hlist.
  destruct (Invoice_init_Ok_inv _ _ _ _ _ _ Hinit)
    as (p & q & _ & _ & _ & _ & _ & ->).
  exists (100 * p + q). split; [reflexivity|].
  unfold get_mean, get_median, invoice_amounts. rewrite Hlist.
  cbn [amounts_of get_pennies_tot pennies_tot]. run_bind.
  rewrite mean_single, median_single. run_bind.
  now rewrite round_half_down_int.
Qed.

Lemma C10_witness_19_84 :
  exists z : Z,
    pennies_tot (test_invoice 19 84) = VInt z /\
    get_mean (Build_InvoiceStats [OInvoice (test_invoice 19 84)] 1)
      = Ok (VInt z) /\
    get_median (Build_InvoiceStats [OInvoice (test_invoice 19 84)] 1)
      = Ok (VInt z).
Proof.
  apply (C10_single_record "2021-03-01" (VStr "Company-A") (VStr "Company-B")
           (VInt 19) (VInt 84) (test_invoice 19 84)
           (Build_InvoiceStats [OInvoice (test_invoice 19 84)] 1));
    reflexivity.
Defined.

(** ** Adding invoices *)

(** The three outcomes of [add_invoice]. *)
Lemma add_invoice_eq (invoice : pyobj) (self : InvoiceStats) :
  add_invoice invoice self =
    match invoice with
    | OVal v => (Raise (InvoiceStatsTypeError (type_name v)), self)
    | OInvoice _ =>
        if 20000000 <=? invoice_count self then
          (Raise (MaxNumberOfInvoicesError _INVOICE_COUNT_MAX), self)
        else
          (Ok tt, {| invoice_list := invoice_list self ++ [invoice];
                     invoice_count := invoice_count self + 1 |})
    end.
Proof.
  destruct invoice as [inv|v]; [|reflexivity].
  unfold add_invoice, mbind, is_invoice, mret, check_max_invoice_num.
  rewrite py_ge_INVOICE_COUNT_MAX.
  now destruct (20000000 <=? invoice_count self).
Qed.

Lemma add_invoice_Raise (invoice : pyobj) (self self' : InvoiceStats)
    (e : exn) :
  add_invoice invoice self = (Raise e, self') -> self' = self.
Proof.
  rewrite add_invoice_eq. destruct invoice as [inv|v].
  - destruct (20000000 <=? invoice_count self); congruence.
  - congruence.
Qed.

Lemma add_invoice_Ok (invoice : pyobj) (self self' : InvoiceStats) (u : unit) :
  add_invoice invoice self = (Ok u, self') ->
  invoice_list self' = invoice_list self ++ [invoice] /\
  invoice_count self' = invoice_count self + 1 /\
  invoice_count self < 20000000.
Proof.
  rewrite add_invoice_eq. destruct invoice as [inv|v]; [|discriminate].
  destruct (20000000 <=? invoice_count self) eqn:E; [discriminate|].
  intros H. injection H as _ <-. apply Z.leb_gt in E. now repeat split.
Qed.

Lemma add_invoices_cons (invoice : pyobj) (rest : list pyobj)
    (self : InvoiceStats) :
  add_invoices (invoice :: rest) self =
    match add_invoice invoice self with
    | (Ok _, self') => add_invoices rest self'
    | (Raise e, self') => (Raise e, self')
    end.
Proof. reflexivity. Qed.

Lemma add_invoices_Ok (invoices : list pyobj) :
  forall (self self' : InvoiceStats) (u : unit),
    add_invoices invoices self = (Ok u, self') ->
    invoice_list self' = invoice_list self ++ invoices /\
    invoice_count self' =
      invoice_count self + Z.of_nat (List.length invoices).
Proof.
  induction invoices as [|x rest IH]; intros self self' u H.
  - injection H as _ <-. rewrite app_nil_r. cbn. split; [reflexivity | lia].
  - rewrite add_invoices_cons in H.
    destruct (add_invoice x self) as [[u1|e] s1] eqn:Hx; [|discriminate].
    apply add_invoice_Ok in Hx. destruct Hx as (Hl & Hc & _).
    apply IH in H. destruct H as [Hl' Hc'].
    rewrite Hl', Hl, Hc', Hc, <- app_assoc.
    cbn [List.length app]. split; [reflexivity | lia].
Qed.

(** A failing [add_invoices] stops at the first invoice that fails and keeps
    everything added before it. *)
Lemma add_invoices_Raise (invoices : list pyobj) :
  forall (self self' : InvoiceStats) (e : exn),
    add_invoices invoices self = (Raise e, self') ->
    exists (added : list pyobj) (bad : pyobj) (rest : list pyobj),
      invoices = added ++ bad :: rest /\
      add_invoices added self = (Ok tt, self') /\
      add_invoice bad self' = (Raise e, self') /\
      invoice_list self' = invoice_list self ++ added /\
      invoice_count self' = invoice_count self + Z.of_nat (List.length added).
Proof.
  induction invoices as [|x rest IH]; intros self self' e H.
  - discriminate.
  - rewrite add_invoices_cons in H.
    destruct (add_invoice x self) as [[u1|e1] s1] eqn:Hx.
    + destruct (IH _ _ _ H) as (added & bad & rest' & -> & Hadd & Hbad & Hl & Hc).
      exists (x :: added), bad, rest'.
      split; [reflexivity|].
      split; [rewrite add_invoices_cons, Hx; exact Hadd|].
      split; [exact Hbad|].
      apply add_invoice_Ok in Hx. destruct Hx as (Hl1 & Hc1 & _).
      rewrite Hl, Hl1, Hc, Hc1, <- app_assoc.
      cbn [List.length app]. split; [reflexivity | lia].
    + injection H as <- <-.
      pose proof (add_invoice_Raise _ _ _ _ Hx) as ->.
      exists [], x, rest. cbn. rewrite app_nil_r.
      repeat split; [exact Hx | lia].
Qed.

(** ** The invariant of the count *)

Lemma count_ok_add_invoice (invoice : pyobj) (self : InvoiceStats) :
  count_ok self -> count_ok (snd (add_invoice invoice self)).
Proof.
  intros [Hlen Hmax]. rewrite add_invoice_eq.
  destruct invoice as [inv|v]; [|now split].
  destruct (20000000 <=? invoice_count self) eqn:E; [now split|].
  apply Z.leb_gt in E. unfold count_ok. cbn [snd invoice_list invoice_count].
  rewrite length_app. cbn [List.length]. lia.
Qed.

Lemma count_ok_add_invoices (invoices : list pyobj) :
  forall self : InvoiceStats,
    count_ok self -> count_ok (snd (add_invoices invoices self)).
Proof.
  induction invoices as [|x rest IH]; intros self H.
  - exact H.
  - rewrite add_invoices_cons.
    pose proof (count_ok_add_invoice x self H) as Hx.
    destruct (add_invoice x self) as [[u|e] s1]; cbn [snd] in *.
    + now apply IH.
    + exact Hx.
Qed.

Lemma count_ok_clear (self : InvoiceStats) : count_ok (snd (clear self)).
Proof. unfold count_ok. cbn. lia. Qed.

Lemma count_ok_init (args : list pyobj) (self : InvoiceStats) :
  InvoiceStats_init args = Ok self -> count_ok self.
Proof.
  unfold InvoiceStats_init, mbind. cbn [clear].
  pose proof (count_ok_add_invoices args _
                (count_ok_clear (Build_InvoiceStats [] 0))) as H.
  cbn [clear snd] in H.
  destruct (add_invoices args _) as [[u|e] s1]; [|discriminate].
  intros E. injection E as <-. exact H.
Qed.

Lemma reachable_count_ok (self : InvoiceStats) :
  reachable self -> count_ok self.
Proof.
  induction 1.
  - eapply count_ok_init; eassumption.
  - now apply count_ok_add_invoice.
  - now apply count_ok_add_invoices.
  - apply count_ok_clear.
Qed.

(** C5. In every state the interface can produce, the count is at most
    20,000,000 (and is the length of the list); adding an invoice to a full
    [InvoiceStats] raises [MaxNumberOfInvoicesError] with list and count as
    they were, and no call that raises changes either. *)
Theorem C5_count_capped :
  (forall self : InvoiceStats,
     reachable self ->
     invoice_count self <= 20000000 /\
     invoice_count self = Z.of_nat (List.length (invoice_list self))) /\
  (forall (self : InvoiceStats) (inv : Invoice),
     20000000 <= invoice_count self ->
     add_invoice (OInvoice inv) self =
       (Raise (MaxNumberOfInvoicesError _INVOICE_COUNT_MAX), self)) /\
  (forall (self self' : InvoiceStats) (invoice : pyobj) (e : exn),
     add_invoice invoice self = (Raise e, self') ->
     invoice_list self' = invoice_list self /\
     invoice_count self' = invoice_count self).
Proof.
  split; [|split].
  - intros self Hr. destruct (reachable_count_ok self Hr) as [Hlen Hmax].
    now split.
  - intros self inv Hfull. rewrite add_invoice_eq.
    now replace (20000000 <=? invoice_count self) with true
      by (symmetry; apply Z.leb_le; exact Hfull).
  - intros self self' invoice e H.
    now rewrite (add_invoice_Raise _ _ _ _ H).
Qed.

(** Three invoices through the constructor, and a full [InvoiceStats]. *)
Lemma C5_witness_three_and_full :
  invoice_count
    (snd (add_invoices
            [OInvoice (test_invoice 1000 0); OInvoice (test_invoice 2500 0);
             OInvoice (test_invoice 3000 0)] (snd (clear (Build_InvoiceStats [] 0)))))
    <= 20000000 /\
  add_invoice (OInvoice (test_invoice 1000 0)) (Build_InvoiceStats [] 20000000)
    = (Raise (MaxNumberOfInvoicesError _INVOICE_COUNT_MAX),
       Build_InvoiceStats [] 20000000).
Proof.
  split.
  - apply (proj1 C5_count_capped).
    apply reachable_add_invoices, reachable_clear.
    now apply (reachable_init []).
  - apply (proj1 (proj2 C5_count_capped)). cbn. lia.
Defined.

(** C7. [add_invoices] adds the invoices one at a time, in order, each by
    [add_invoice], and stops at the first one that fails; when one fails the
    call raises its error and the invoices before it stay in the list,
    counted; when none fails all of them are in the list. *)
Theorem C7_add_invoices_no_rollback (invoices : list pyobj)
    (self : InvoiceStats) :
  (forall (invoice : pyobj) (rest : list pyobj),
     add_invoices (invoice :: rest) self =
       match add_invoice invoice self with
       | (Ok _, self') => add_invoices rest self'
       | (Raise e, self') => (Raise e, self')
       end) /\
  (forall (self' : InvoiceStats) (e : exn),
     add_invoices invoices self = (Raise e, self') ->
     exists (added : list pyobj) (bad : pyobj) (rest : list pyobj),
       invoices = added ++ bad :: rest /\
       add_invoices added self = (Ok tt, self') /\
       add_invoice bad self' = (Raise e, self') /\
       invoice_list self' = invoice_list self ++ added /\
       invoice_count self' =
         invoice_count self + Z.of_nat (List.length added)) /\
  (forall self' : InvoiceStats,
     add_invoices invoices self = (Ok tt, self') ->
     invoice_list self' = invoice_list self ++ invoices /\
     invoice_count self' =
       invoice_count self + Z.of_nat (List.length invoices)).
Proof.
  split; [|split].
  - intros invoice rest. apply add_invoices_cons.
  - intros self' e. apply add_invoices_Raise.
  - intros self'. apply add_invoices_Ok.
Qed.

(** An invoice, then a string, then another invoice: the first one stays. *)
Lemma C7_witness_string_in_the_middle :
  exists (added : list pyobj) (bad : pyobj) (rest : list pyobj),
    [OInvoice (test_invoice 1000 0); OVal (VStr "invoice");
     OInvoice (test_invoice 3000 0)] = added ++ bad :: rest /\
    add_invoices added (Build_InvoiceStats [] 0)
      = (Ok tt, Build_InvoiceStats [OInvoice (test_invoice 1000 0)] 1) /\
    add_invoice bad (Build_InvoiceStats [OInvoice (test_invoice 1000 0)] 1)
      = (Raise (InvoiceStatsTypeError "str"),
         Build_InvoiceStats [OInvoice (test_invoice 1000 0)] 1) /\
    invoice_list (Build_InvoiceStats [OInvoice (test_invoice 1000 0)] 1)
      = invoice_list (Build_InvoiceStats [] 0) ++ added /\
    invoice_count (Build_InvoiceStats [OInvoice (test_invoice 1000 0)] 1)
      = invoice_count (Build_InvoiceStats [] 0) + Z.of_nat (List.length added).
Proof.
  apply (proj1 (proj2 (C7_add_invoices_no_rollback
           [OInvoice (test_invoice 1000 0); OVal (VStr "invoice");
            OInvoice (test_invoice 3000 0)]
           (Build_InvoiceStats [] 0)))
           (Build_InvoiceStats [OInvoice (test_invoice 1000 0)] 1)
           (InvoiceStatsTypeError "str")).
  reflexivity.
Defined.

(** C8. [add_invoice] tests the type first: a value that is not an invoice
    raises [InvoiceStatsTypeError] with the name of its type, whatever the
    count is; an invoice raises [MaxNumberOfInvoicesError] with the maximum
    when the count has reached it; otherwise the invoice is appended and the
    count is one more. *)
Theorem C8_add_invoice_checks (self : InvoiceStats) :
  (forall v : pyval,
     add_invoice (OVal v) self =
       (Raise (InvoiceStatsTypeError (type_name v)), self)) /\
  (forall inv : Invoice,
     20000000 <= invoice_count self ->
     add_invoice (OInvoice inv) self =
       (Raise (MaxNumberOfInvoicesError _INVOICE_COUNT_MAX), self)) /\
  (forall inv : Invoice,
     invoice_count self < 20000000 ->
     add_invoice (OInvoice inv) self =
       (Ok tt, {| invoice_list := invoice_list self ++ [OInvoice inv];
                  invoice_count := invoice_count self + 1 |})) /\
  (Float.to_Q _INVOICE_COUNT_MAX == inject_Z 20000000)%Q.
Proof.
  split; [|split; [|split]].
  - intros v. now rewrite add_invoice_eq.
  - intros inv Hfull. rewrite add_invoice_eq.
    now replace (20000000 <=? invoice_count self) with true
      by (symmetry; apply Z.leb_le; exact Hfull).
  - intros inv Hroom. rewrite add_invoice_eq.
    now replace (20000000 <=? invoice_count self) with false
      by (symmetry; apply Z.leb_gt; exact Hroom).
  - exact to_Q_INVOICE_COUNT_MAX.
Qed.

(** A string offered to a full [InvoiceStats] is a type error; an invoice
    offered to it is refused for the count; an empty one takes the invoice. *)
Lemma C8_witness_full_and_empty :
  add_invoice (OVal (VStr "invoice")) (Build_InvoiceStats [] 20000000)
    = (Raise (InvoiceStatsTypeError "str"), Build_InvoiceStats [] 20000000) /\
  add_invoice (OInvoice (test_invoice 1000 0)) (Build_InvoiceStats [] 20000000)
    = (Raise (MaxNumberOfInvoicesError _INVOICE_COUNT_MAX),
       Build_InvoiceStats [] 20000000) /\
  add_invoice (OInvoice (test_invoice 1000 0)) (Build_InvoiceStats [] 0)
    = (Ok tt, Build_InvoiceStats [OInvoice (test_invoice 1000 0)] 1).
Proof.
  split; [|split].
  - apply (proj1 (C8_add_invoice_checks (Build_InvoiceStats [] 20000000))).
  - apply (proj1 (proj2 (C8_add_invoice_checks
                           (Build_InvoiceStats [] 20000000)))).
    cbn. lia.
  - apply (proj1 (proj2 (proj2 (C8_add_invoice_checks
                                  (Build_InvoiceStats [] 0))))).
    cbn. lia.
Defined.

(** ** The statistics of the unit tests *)

(** The arrangements of three values. *)
Lemma Permutation_three {A : Type} (x y z a b c : A) :
  Permutation [x; y; z] [a; b; c] ->
  (x = a /\ (y = b /\ z = c \/ y = c /\ z = b)) \/
  (x = b /\ (y = a /\ z = c \/ y = c /\ z = a)) \/
  (x = c /\ (y = a /\ z = b \/ y = b /\ z = a)).
Proof.
  intros H.
  assert (Hin : In x [a; b; c])
    by (apply (Permutation_in x H); left; reflexivity).
  destruct Hin as [E|[E|[E|[]]]]; subst x.
  - left. split; [reflexivity|].
    apply Permutation_length_2. exact (Permutation_cons_inv H).
  - right; left. split; [reflexivity|].
    apply Permutation_length_2.
    exact (Permutation_cons_app_inv [a] [c] H).
  - right; right. split; [reflexivity|].
    apply Permutation_length_2.
    exact (Permutation_cons_app_inv [a; b] [] H).
Qed.

(** C4. An [InvoiceStats] constructed with three invoices whose totals are
    100000, 250000 and 300000 pennies, given in any order, has mean 216667
    and median 250000. *)
Theorem C4_mean_median_of_three (inv1 inv2 inv3 : Invoice) :
  Permutation [pennies_tot inv1; pennies_tot inv2; pennies_tot inv3]
    [VInt 100000; VInt 250000; VInt 300000] ->
  exists self : InvoiceStats,
    InvoiceStats_init [OInvoice inv1; OInvoice inv2; OInvoice inv3] = Ok self /\
    invoice_count self = 3 /\
    get_mean self = Ok (VInt 216667) /\
    get_median self = Ok (VInt 250000).
Proof.
  intros H.
  exists (Build_InvoiceStats [OInvoice inv1; OInvoice inv2; OInvoice inv3] 3).
  split; [reflexivity|]. split; [reflexivity|].
  unfold get_mean, get_median, invoice_amounts.
  cbn [invoice_list amounts_of get_pennies_tot]. run_bind.
  destruct (Permutation_three _ _ _ _ _ _ H)
    as [[-> [[-> ->]|[-> ->]]]|[[-> [[-> ->]|[-> ->]]]|[-> [[-> ->]|[-> ->]]]]];
    split; vm_compute; reflexivity.
Qed.

(** The three invoices of the unit tests, largest first: 3000, 1000 and
    2500 pounds. *)
Lemma C4_witness_test_invoices :
  exists self : InvoiceStats,
    InvoiceStats_init
      [OInvoice (test_invoice 3000 0); OInvoice (test_invoice 1000 0);
       OInvoice (test_invoice 2500 0)] = Ok self /\
    invoice_count self = 3 /\
    get_mean self = Ok (VInt 216667) /\
    get_median self = Ok (VInt 250000).
Proof.
  apply (C4_mean_median_of_three (test_invoice 3000 0) (test_invoice 1000 0)
           (test_invoice 2500 0)).
  cbn [test_invoice pennies_tot Z.mul Z.add Pos.mul Pos.add].
  apply (Permutation_cons_app [VInt 100000; VInt 250000] []).
  reflexivity.
Defined.

(** ** The model of the statistics functions is adequate *)





(** The amounts of constructed invoices are ints within the maximum, so the
    statistics functions are only ever called on the data they are modelled
    for. *)
Lemma constructed_amounts_int (l : list pyobj) :
  Forall constructed l ->
  exists zs : list Z,
    amounts_of l = Ok (map VInt zs) /\
    statistics.int_data (map VInt zs) = Some zs /\
    Forall (fun z => 0 <= z <= 20000000000) zs.
Proof.
  induction 1 as [|o l Ho _ IH].
  - exists []. repeat split. constructor.
  - destruct IH as (zs & Ha & Hd & Hb).
    destruct Ho as (inv & today & sup & rcp & pds & pns & -> & Hinit).
    destruct (Invoice_init_Ok_inv _ _ _ _ _ _ Hinit)
      as (p & q & _ & _ & Hp & Hq & Ht & ->).
    exists (100 * p + q :: zs). split; [|split].
    + cbn [amounts_of get_pennies_tot pennies_tot]. run_bind.
      now rewrite Ha.
    + cbn [map statistics.int_data]. now rewrite Hd.
    + constructor; [lia | exact Hb].
Qed.

(** * Further properties *)

(** ** The constructor of [Invoice], on every kind of argument *)

(** The outcome on two instances of [int] (ints or bools), in full. *)
Lemma Invoice_init_as_int (today : string) (sup rcp pds pns : pyval)
    (p q : Z) :
  as_int pds = Some p ->
  as_int pns = Some q ->
  Invoice_init today sup rcp pds pns =
    if (p <? 0) || (q <? 0) then Raise (InvoiceValidationError NegativeValues)
    else if 99 <? q then Raise (InvoiceValidationError PenniesAbove99)
    else if 20000000000 <? 100 * p + q then
      Raise (InvoiceValidationError (TotalAboveMax pds pns))
    else Ok (Build_Invoice today sup rcp pds pns (VInt (100 * p + q))).
Proof.
  intros Hp Hq.
  rewrite (Invoice_init_check_order today sup rcp pds pns (VInt (100 * p + q))).
  - now rewrite Hp, Hq.
  - exact (convert_to_pennies_int (Build_Invoice today sup rcp pds pns VNone)
             p q Hp Hq).
Qed.

(** X1. The constructor returns an invoice exactly when both amounts are
    instances of [int] (a bool counts as 0 or 1), neither is negative, the
    pennies are at most 99 and the total is at most 20,000,000,000; the
    invoice then holds the four arguments as given, and their total. *)
Theorem X1_Invoice_init_succeeds_iff (today : string)
    (sup rcp pds pns : pyval) (inv : Invoice) :
  Invoice_init today sup rcp pds pns = Ok inv <->
  exists p q : Z,
    as_int pds = Some p /\ as_int pns = Some q /\
    0 <= p /\ 0 <= q <= 99 /\ 100 * p + q <= 20000000000 /\
    inv = Build_Invoice today sup rcp pds pns (VInt (100 * p + q)).
Proof.
  split.
  - apply Invoice_init_Ok_inv.
  - intros (p & q & Hp & Hq & Hp0 & Hq0 & Ht & ->).
    rewrite (Invoice_init_as_int today sup rcp pds pns p q Hp Hq).
    ltb_false. reflexivity.
Qed.

(** A bool for the pounds and the largest pennies. *)
Lemma X1_witness_bool_pounds :
  Invoice_init "2021-03-01" (VStr "Company-A") (VStr "Company-B")
    (VBool true) (VInt 99)
  = Ok (Build_Invoice "2021-03-01" (VStr "Company-A") (VStr "Company-B")
          (VBool true) (VInt 99) (VInt 199)).
Proof.
  apply (proj2 (X1_Invoice_init_succeeds_iff "2021-03-01" (VStr "Company-A")
                  (VStr "Company-B") (VBool true) (VInt 99) _)).
  exists 1, 99. repeat split; try reflexivity; lia.
Defined.

(** X2. A constructed invoice is consistent with its own methods: running
    the checks on it again passes, [convert_to_pennies] returns the stored
    total, and the pounds are at most 200,000,000. *)
Theorem X2_constructed_invoice_consistent (today : string)
    (sup rcp pds pns : pyval) (inv : Invoice) :
  Invoice_init today sup rcp pds pns = Ok inv ->
  _check_valid_inputs inv = Ok tt /\
  convert_to_pennies inv = Ok (pennies_tot inv) /\
  exists p q : Z,
    as_int (pounds inv) = Some p /\ as_int (pennies_rem inv) = Some q /\
    pennies_tot inv = VInt (100 * p + q) /\
    0 <= p <= 200000000 /\ 0 <= q <= 99 /\
    0 <= 100 * p + q <= 20000000000.
Proof.
  intros Hinit.
  destruct (Invoice_init_Ok_inv _ _ _ _ _ _ Hinit)
    as (p & q & Hp & Hq & Hp0 & Hq0 & Ht & ->).
  set (inv := Build_Invoice today sup rcp pds pns (VInt (100 * p + q))).
  split; [|split].
  - rewrite (_check_valid_inputs_int inv p q (100 * p + q) Hp Hq eq_refl).
    ltb_false. reflexivity.
  - exact (convert_to_pennies_int inv p q Hp Hq).
  - exists p, q. cbn [inv pounds pennies_rem pennies_tot].
    repeat split; try assumption; lia.
Qed.

Lemma X2_witness_largest_invoice :
  _check_valid_inputs (test_invoice 200000000 0) = Ok tt /\
  convert_to_pennies (test_invoice 200000000 0)
    = Ok (pennies_tot (test_invoice 200000000 0)) /\
  exists p q : Z,
    as_int (pounds (test_invoice 200000000 0)) = Some p /\
    as_int (pennies_rem (test_invoice 200000000 0)) = Some q /\
    pennies_tot (test_invoice 200000000 0) = VInt (100 * p + q) /\
    0 <= p <= 200000000 /\ 0 <= q <= 99 /\
    0 <= 100 * p + q <= 20000000000.
Proof.
  apply (X2_constructed_invoice_consistent "2021-03-01" (VStr "Company-A")
           (VStr "Company-B") (VInt 200000000) (VInt 0)
           (test_invoice 200000000 0)).
  reflexivity.
Defined.

Lemma py_mul_100_float (x : Float.float) :
  py_mul (VInt 100) (VFloat x)
  = Ok (VFloat (Float.mul (Float.of_Z 100) x)).
Proof. reflexivity. Qed.

(** X3. Which exception an amount that is not an instance of [int] gives.
    The total is computed first, so the type check of the constructor is
    reached only when [100 * pounds + pennies_rem] can be evaluated:
    [None] for either amount, and a str with anything but a str, raise the
    built-in [TypeError]; two strs, two floats, and a float with an int that
    converts to a float raise the [InvoiceValidationError] of the type check;
    an int too large for a float, met with a float, raises
    [OverflowError]. *)
Theorem X3_non_int_amount_exception (today : string) (sup rcp : pyval) :
  (forall pns : pyval,
     Invoice_init today sup rcp VNone pns = Raise TypeError) /\
  (forall s t : string,
     Invoice_init today sup rcp (VStr s) (VStr t)
     = Raise (InvoiceValidationError (PoundsNotInt "str"))) /\
  (forall (s : string) (pns : pyval),
     type_name pns <> "str"%string ->
     Invoice_init today sup rcp (VStr s) pns = Raise TypeError) /\
  (forall x y : Float.float,
     Invoice_init today sup rcp (VFloat x) (VFloat y)
     = Raise (InvoiceValidationError (PoundsNotInt "float"))) /\
  (forall (x : Float.float) (pns : pyval) (q : Z),
     as_int pns = Some q ->
     Invoice_init today sup rcp (VFloat x) pns
     = if Float.is_finite (Float.of_Z q)
       then Raise (InvoiceValidationError (PoundsNotInt "float"))
       else Raise OverflowError) /\
  (forall (pds : pyval) (p : Z) (y : Float.float),
     as_int pds = Some p ->
     Invoice_init today sup rcp pds (VFloat y)
     = if Float.is_finite (Float.of_Z (100 * p))
       then Raise (InvoiceValidationError (PenniesNotInt "float"))
       else Raise OverflowError) /\
  (forall pds : pyval,
     Invoice_init today sup rcp pds VNone = Raise TypeError) /\
  (forall (pds : pyval) (t : string),
     type_name pds <> "str"%string ->
     Invoice_init today sup rcp pds (VStr t) = Raise TypeError).
Proof.
  repeat apply conj.
  - intros pns. reflexivity.
  - intros s t. reflexivity.
  - intros s pns Hty.
    destruct pns as [z|b|y|t|]; try reflexivity. now elim Hty.
  - intros x y. reflexivity.
  - intros x pns q Hq. unfold Invoice_init, convert_to_pennies.
    cbn [pounds pennies_rem]. rewrite py_mul_100_float. run_bind.
    unfold py_add. cbn [as_int]. rewrite Hq. unfold int_to_float.
    destruct (Float.is_finite (Float.of_Z q)); [|reflexivity].
    run_bind.
    now rewrite (_check_valid_inputs_not_int (set_pennies_tot _ _)).
  - intros pds p y Hp. unfold Invoice_init, convert_to_pennies.
    cbn [pounds pennies_rem]. unfold py_mul. cbn [as_int]. rewrite Hp.
    run_bind. unfold py_add. cbn [as_int]. unfold int_to_float.
    destruct (Float.is_finite (Float.of_Z (100 * p))); [|reflexivity].
    run_bind.
    rewrite (_check_valid_inputs_not_int (set_pennies_tot _ _)).
    + cbn [set_pennies_tot pounds pennies_rem]. unfold isinstance_int.
      now rewrite Hp.
    + cbn [set_pennies_tot pounds pennies_rem]. unfold isinstance_int.
      now rewrite Hp.
  - intros pds. now destruct pds.
  - intros pds t Hty.
    destruct pds as [z|b|x|s|]; try reflexivity. now elim Hty.
Qed.

(** A float with [None], and the pounds as a str with int pennies. *)
Lemma X3_witness_type_errors :
  Invoice_init "2021-03-01" (VStr "Company-A") (VStr "Company-B")
    (VStr "10") (VInt 5) = Raise TypeError /\
  Invoice_init "2021-03-01" (VStr "Company-A") (VStr "Company-B")
    (VFloat Float.half) VNone = Raise TypeError /\
  Invoice_init "2021-03-01" (VStr "Company-A") (VStr "Company-B")
    (VFloat Float.half) (VInt (2 ^ 1024)) = Raise OverflowError.
Proof.
  pose proof (X3_non_int_amount_exception "2021-03-01" (VStr "Company-A")
                (VStr "Company-B")) as (_ & _ & Hstr & _ & Hflt & _ & Hnone & _).
  split; [|split].
  - apply Hstr. discriminate.
  - apply Hnone.
  - exact (Hflt Float.half (VInt (2 ^ 1024)) (2 ^ 1024) eq_refl).
Defined.



(** ** The constructor of [InvoiceStats] and the capacity *)

Lemma add_invoice_Ok_invoice (invoice : pyobj) (self self' : InvoiceStats)
    (u : unit) :
  add_invoice invoice self = (Ok u, self') -> exists inv, invoice = OInvoice inv.
Proof.
  rewrite add_invoice_eq. destruct invoice as [inv|v]; [|discriminate].
  intros _. now exists inv.
Qed.

(** Invoices that fit are all added. *)
Lemma add_invoices_fit (invoices : list pyobj) :
  forall self : InvoiceStats,
    Forall (fun o => exists inv, o = OInvoice inv) invoices ->
    invoice_count self + Z.of_nat (List.length invoices) <= 20000000 ->
    add_invoices invoices self =
      (Ok tt, {| invoice_list := invoice_list self ++ invoices;
                 invoice_count :=
                   invoice_count self + Z.of_nat (List.length invoices) |}).
Proof.
  induction invoices as [|x rest IH]; intros self Hall Hfit.
  - cbn. rewrite app_nil_r, Z.add_0_r. now destruct self.
  - inversion Hall as [|? ? [inv ->] Hrest]; subst.
    cbn [List.length] in Hfit.
    rewrite add_invoices_cons, add_invoice_eq.
    replace (20000000 <=? invoice_count self) with false
      by (symmetry; apply Z.leb_gt; lia).
    rewrite IH; [|exact Hrest|cbn [invoice_count]; lia].
    cbn [invoice_list invoice_count List.length].
    rewrite <- app_assoc. cbn [app]. do 2 f_equal. lia.
Qed.

(** What a successful [add_invoices] was given. *)
Lemma add_invoices_Ok_fit (invoices : list pyobj) :
  forall (self self' : InvoiceStats) (u : unit),
    add_invoices invoices self = (Ok u, self') ->
    invoice_count self <= 20000000 ->
    Forall (fun o => exists inv, o = OInvoice inv) invoices /\
    invoice_count self + Z.of_nat (List.length invoices) <= 20000000.
Proof.
  induction invoices as [|x rest IH]; intros self self' u H Hcap.
  - split; [constructor | cbn; lia].
  - rewrite add_invoices_cons in H.
    destruct (add_invoice x self) as [[u1|e] s1] eqn:Hx; [|discriminate].
    destruct (add_invoice_Ok_invoice _ _ _ _ Hx) as [inv ->].
    apply add_invoice_Ok in Hx. destruct Hx as (_ & Hc & Hlt).
    destruct (IH _ _ _ H) as [Hall Hfit]; [lia|].
    split; [constructor; [now exists inv | exact Hall]|].
    cbn [List.length]. lia.
Qed.

(** X5. The constructor of [InvoiceStats] returns exactly when every
    argument is an invoice and there are at most 20,000,000 of them; the
    object then holds the arguments in their order, and their number. *)
Theorem X5_InvoiceStats_init_succeeds_iff (args : list pyobj)
    (self : InvoiceStats) :
  InvoiceStats_init args = Ok self <->
  Forall (fun o => exists inv, o = OInvoice inv) args /\
  Z.of_nat (List.length args) <= 20000000 /\
  self = {| invoice_list := args;
            invoice_count := Z.of_nat (List.length args) |}.
Proof.
  unfold InvoiceStats_init, mbind. cbn [clear]. split.
  - destruct (add_invoices args _) as [[u|e] s1] eqn:H; [|discriminate].
    intros E. injection E as ->.
    destruct (add_invoices_Ok_fit _ _ _ _ H) as [Hall Hfit];
      [cbn; lia|].
    cbn [invoice_count] in Hfit.
    apply add_invoices_Ok in H. cbn [invoice_list invoice_count app] in H.
    destruct H as [Hl Hc]. repeat split; [exact Hall | lia |].
    destruct self as [l c]. cbn in Hl, Hc. now subst.
  - intros (Hall & Hfit & ->).
    rewrite add_invoices_fit; [reflexivity | exact Hall | cbn; lia].
Qed.

Lemma X5_witness_three_invoices :
  InvoiceStats_init
    [OInvoice (test_invoice 1000 0); OInvoice (test_invoice 2500 0);
     OInvoice (test_invoice 3000 0)]
  = Ok (Build_InvoiceStats
          [OInvoice (test_invoice 1000 0); OInvoice (test_invoice 2500 0);
           OInvoice (test_invoice 3000 0)] 3).
Proof.
  apply (proj2 (X5_InvoiceStats_init_succeeds_iff _ _)).
  repeat split.
  - repeat constructor; eexists; reflexivity.
  - cbn. lia.
Defined.

(** X6. Given a value that is not an invoice after invoices that all fit,
    [add_invoices] stops there with the invoices before the value stored and
    raises [InvoiceStatsTypeError] with the name of the type of that value,
    whatever follows it; the constructor of [InvoiceStats] raises the same
    error. *)
Theorem X6_first_non_invoice_raises (invs rest : list pyobj) (v : pyval) :
  Forall (fun o => exists inv, o = OInvoice inv) invs ->
  (forall self : InvoiceStats,
     invoice_count self + Z.of_nat (List.length invs) <= 20000000 ->
     add_invoices (invs ++ OVal v :: rest) self =
       (Raise (InvoiceStatsTypeError (type_name v)),
        {| invoice_list := invoice_list self ++ invs;
           invoice_count :=
             invoice_count self + Z.of_nat (List.length invs) |})) /\
  (Z.of_nat (List.length invs) <= 20000000 ->
   InvoiceStats_init (invs ++ OVal v :: rest)
   = Raise (InvoiceStatsTypeError (type_name v))).
Proof.
  intros Hall.
  assert (Hadd : forall s : InvoiceStats,
             invoice_count s + Z.of_nat (List.length invs) <= 20000000 ->
             add_invoices (invs ++ OVal v :: rest) s =
               (Raise (InvoiceStatsTypeError (type_name v)),
                {| invoice_list := invoice_list s ++ invs;
                   invoice_count :=
                     invoice_count s + Z.of_nat (List.length invs) |})).
  { induction Hall as [|x l [inv ->] _ IH]; intros s Hfit.
    - cbn. rewrite app_nil_r, Z.add_0_r. now destruct s.
    - cbn [List.length] in Hfit. cbn [app].
      rewrite add_invoices_cons, add_invoice_eq.
      replace (20000000 <=? invoice_count s) with false
        by (symmetry; apply Z.leb_gt; lia).
      rewrite IH by (cbn [invoice_count]; lia).
      cbn [invoice_list invoice_count List.length].
      rewrite <- app_assoc. cbn [app]. do 2 f_equal. lia. }
  split; [exact Hadd|].
  intros Hfit. unfold InvoiceStats_init, mbind. cbn [clear].
  rewrite Hadd; [reflexivity|]. cbn [invoice_count]. lia.
Qed.

Lemma X6_witness_string_second :
  InvoiceStats_init
    [OInvoice (test_invoice 1000 0); OVal (VStr "invoice");
     OInvoice (test_invoice 3000 0)]
  = Raise (InvoiceStatsTypeError "str").
Proof.
  apply (proj2 (X6_first_non_invoice_raises [OInvoice (test_invoice 1000 0)]
                  [OInvoice (test_invoice 3000 0)] (VStr "invoice")
                  ltac:(repeat constructor; eexists; reflexivity))).
  cbn. lia.
Defined.

(** X7. When more invoices are given than there is room for, [add_invoices]
    stores the ones that fit, in order, and raises
    [MaxNumberOfInvoicesError]; the count is then exactly 20,000,000. *)
Theorem X7_add_invoices_over_capacity (invoices : list pyobj)
    (self : InvoiceStats) :
  Forall (fun o => exists inv, o = OInvoice inv) invoices ->
  invoice_count self <= 20000000 ->
  20000000 < invoice_count self + Z.of_nat (List.length invoices) ->
  add_invoices invoices self =
    (Raise (MaxNumberOfInvoicesError _INVOICE_COUNT_MAX),
     {| invoice_list :=
          invoice_list self
          ++ firstn (Z.to_nat (20000000 - invoice_count self)) invoices;
        invoice_count := 20000000 |}).
Proof.
  intros Hall. revert self.
  induction Hall as [|x l [inv ->] _ IH]; intros self Hcap Hover.
  - cbn in Hover. lia.
  - rewrite add_invoices_cons, add_invoice_eq.
    destruct (20000000 <=? invoice_count self) eqn:E.
    + apply Z.leb_le in E. assert (invoice_count self = 20000000) as Hc by lia.
      rewrite Hc. change (20000000 - 20000000) with 0.
      cbn [Z.to_nat firstn]. rewrite app_nil_r.
      destruct self as [l0 c]. cbn [invoice_list invoice_count] in *.
      now subst.
    + apply Z.leb_gt in E. cbn [List.length] in Hover.
      rewrite IH by (cbn [invoice_count]; lia).
      cbn [invoice_list invoice_count].
      replace (Z.to_nat (20000000 - invoice_count self))
        with (S (Z.to_nat (20000000 - (invoice_count self + 1)))) by lia.
      cbn [firstn]. rewrite <- app_assoc. reflexivity.
Qed.

(** One free place and two invoices: the first is stored. *)
Lemma X7_witness_one_place_left :
  add_invoices
    [OInvoice (test_invoice 1000 0); OInvoice (test_invoice 2500 0)]
    (Build_InvoiceStats [] 19999999)
  = (Raise (MaxNumberOfInvoicesError _INVOICE_COUNT_MAX),
     Build_InvoiceStats [OInvoice (test_invoice 1000 0)] 20000000).
Proof.
  apply (X7_add_invoices_over_capacity
           [OInvoice (test_invoice 1000 0); OInvoice (test_invoice 2500 0)]
           (Build_InvoiceStats [] 19999999)).
  - repeat constructor; eexists; reflexivity.
  - cbn. lia.
  - cbn. lia.
Defined.

(** ** Clearing, and the amounts in the order of insertion *)

(** X8. Whatever an [InvoiceStats] holds, even when it is full, [clear]
    returns with the list empty and the count zero; the mean and the median
    then raise [StatisticsError], and an invoice can be added again. *)
Theorem X8_clear_resets (self : InvoiceStats) (inv : Invoice) :
  fst (clear self) = Ok tt /\
  invoice_list (snd (clear self)) = [] /\
  invoice_count (snd (clear self)) = 0 /\
  get_mean (snd (clear self)) = Raise StatisticsError /\
  get_median (snd (clear self)) = Raise StatisticsError /\
  add_invoice (OInvoice inv) (snd (clear self))
  = (Ok tt, {| invoice_list := [OInvoice inv]; invoice_count := 1 |}) /\
  (forall args : list pyobj,
     InvoiceStats_init args =
       match add_invoices args (snd (clear self)) with
       | (Ok _, self') => Ok self'
       | (Raise e, _) => Raise e
       end).
Proof.
  repeat apply conj; reflexivity.
Qed.

Lemma amounts_of_app_invoices (l : list pyobj) (xs : list pyval)
    (invs : list Invoice) :
  amounts_of l = Ok xs ->
  amounts_of (l ++ map OInvoice invs) = Ok (xs ++ map pennies_tot invs).
Proof.
  revert xs. induction l as [|o l IH]; intros xs H.
  - injection H as <-. cbn [app].
    induction invs as [|inv invs IHi]; [reflexivity|].
    cbn [map amounts_of get_pennies_tot]. run_bind. now rewrite IHi.
  - cbn [app amounts_of] in *.
    destruct (get_pennies_tot o) as [v|e]; [|discriminate].
    run_bind in H. run_bind.
    destruct (amounts_of l) as [vs|e]; [|discriminate].
    injection H as <-. now rewrite (IH vs eq_refl).
Qed.

(** X9. Insertion order is kept: after [add_invoices] has added invoices,
    the amounts are the amounts from before followed by the totals of the
    added invoices, in the order they were given. *)
Theorem X9_amounts_in_insertion_order (invs : list Invoice)
    (self self' : InvoiceStats) (xs : list pyval) :
  invoice_amounts self = Ok xs ->
  add_invoices (map OInvoice invs) self = (Ok tt, self') ->
  invoice_amounts self' = Ok (xs ++ map pennies_tot invs).
Proof.
  intros Hxs Hadd. apply add_invoices_Ok in Hadd. destruct Hadd as [Hl _].
  unfold invoice_amounts in *. rewrite Hl.
  now apply amounts_of_app_invoices.
Qed.

(** Invoice A of 19.84 then invoice B of 25.00 after one of 10.00. *)
Lemma X9_witness_a_then_b :
  invoice_amounts
    (Build_InvoiceStats
       [OInvoice (test_invoice 10 0); OInvoice (test_invoice 19 84);
        OInvoice (test_invoice 25 0)] 3)
  = Ok ([VInt 1000]
        ++ map pennies_tot [test_invoice 19 84; test_invoice 25 0]).
Proof.
  apply (X9_amounts_in_insertion_order
           [test_invoice 19 84; test_invoice 25 0]
           (Build_InvoiceStats [OInvoice (test_invoice 10 0)] 1)); reflexivity.
Defined.

Lemma only_invoices_add_invoice (invoice : pyobj) (self : InvoiceStats) :
  Forall (fun o => exists inv, o = OInvoice inv) (invoice_list self) ->
  Forall (fun o => exists inv, o = OInvoice inv)
    (invoice_list (snd (add_invoice invoice self))).
Proof.
  intros H. rewrite add_invoice_eq.
  destruct invoice as [inv|v]; [|exact H].
  destruct (20000000 <=? invoice_count self); [exact H|].
  cbn [snd invoice_list]. apply Forall_app. split; [exact H|].
  constructor; [now exists inv | constructor].
Qed.

Lemma only_invoices_add_invoices (invoices : list pyobj) :
  forall self : InvoiceStats,
    Forall (fun o => exists inv, o = OInvoice inv) (invoice_list self) ->
    Forall (fun o => exists inv, o = OInvoice inv)
      (invoice_list (snd (add_invoices invoices self))).
Proof.
  induction invoices as [|x rest IH]; intros self H.
  - exact H.
  - rewrite add_invoices_cons.
    pose proof (only_invoices_add_invoice x self H) as Hx.
    destruct (add_invoice x self) as [[u|e] s1]; cbn [snd] in *.
    + now apply IH.
    + exact Hx.
Qed.

Lemma reachable_only_invoices (self : InvoiceStats) :
  reachable self ->
  Forall (fun o => exists inv, o = OInvoice inv) (invoice_list self).
Proof.
  induction 1 as [args self Hinit| | |].
  - unfold InvoiceStats_init, mbind in Hinit. cbn [clear] in Hinit.
    pose proof (only_invoices_add_invoices args (Build_InvoiceStats [] 0)
                  (Forall_nil _)) as Hall.
    destruct (add_invoices args _) as [[u|e] s1]; [|discriminate].
    injection Hinit as <-. exact Hall.
  - now apply only_invoices_add_invoice.
  - now apply only_invoices_add_invoices.
  - constructor.
Qed.

Lemma amounts_of_only_invoices (l : list pyobj) :
  Forall (fun o => exists inv, o = OInvoice inv) l ->
  exists vs : list pyval,
    amounts_of l = Ok vs /\ List.length vs = List.length l.
Proof.
  induction 1 as [|o l [inv ->] _ (vs & Hvs & Hlen)].
  - now exists [].
  - exists (pennies_tot inv :: vs). cbn [amounts_of get_pennies_tot].
    run_bind. rewrite Hvs. cbn [List.length]. now rewrite Hlen.
Qed.

(** X10. In every state the interface can produce, the list holds invoices
    only, so reading the amounts never fails: there is one amount per stored
    invoice, as many as the count says. *)
Theorem X10_reachable_amounts_defined (self : InvoiceStats) :
  reachable self ->
  Forall (fun o => exists inv, o = OInvoice inv) (invoice_list self) /\
  exists vs : list pyval,
    invoice_amounts self = Ok vs /\
    Z.of_nat (List.length vs) = invoice_count self.
Proof.
  intros Hr. pose proof (reachable_only_invoices self Hr) as Hall.
  split; [exact Hall|].
  destruct (amounts_of_only_invoices _ Hall) as (vs & Hvs & Hlen).
  exists vs. split; [exact Hvs|].
  destruct (reachable_count_ok self Hr) as [Hc _]. now rewrite Hlen, Hc.
Qed.

(** A string offered after two invoices leaves a state with two amounts. *)
Lemma X10_witness_after_failed_add :
  exists vs : list pyval,
    invoice_amounts
      (snd (add_invoices
              [OInvoice (test_invoice 19 84); OInvoice (test_invoice 25 0);
               OVal (VStr "invoice")] (snd (clear (Build_InvoiceStats [] 0)))))
    = Ok vs /\
    Z.of_nat (List.length vs) = 2.
Proof.
  refine (proj2 (X10_reachable_amounts_defined
           (snd (add_invoices
              [OInvoice (test_invoice 19 84); OInvoice (test_invoice 25 0);
               OVal (VStr "invoice")]
              (snd (clear (Build_InvoiceStats [] 0))))) _)).
  apply reachable_add_invoices, reachable_clear.
  now apply (reachable_init []).
Defined.

(** ** Rounding half down, further *)

(** Rounding half down on exact numbers gives the one integer [r] with
    [r - 1/2 < q <= r + 1/2]. *)
Lemma half_down_nearest (n : Z) (d : positive) :
  (inject_Z (half_down (n # d)) - (1 # 2) < n # d)%Q /\
  (n # d <= inject_Z (half_down (n # d)) + (1 # 2))%Q.
Proof.
  unfold half_down. rewrite Qle_bool_frac.
  unfold Qceiling, Qfloor, Qopp. cbn [Qnum Qden].
  pose proof (Z.div_mod n (Z.pos d) ltac:(discriminate)) as Hdm.
  pose proof (Z.mod_pos_bound n (Z.pos d) ltac:(reflexivity)) as Hm.
  destruct (2 * (n mod Z.pos d) <=? Z.pos d) eqn:E.
  - apply Z.leb_le in E.
    unfold Qlt, Qle, Qminus, Qplus, Qopp, inject_Z. cbn [Qnum Qden].
    rewrite !Pos2Z.inj_mul. split; nia.
  - apply Z.leb_gt in E.
    assert (Hnz : n mod Z.pos d <> 0) by lia.
    rewrite (Z.div_opp_l_nz n (Z.pos d) ltac:(discriminate) Hnz).
    unfold Qlt, Qle, Qminus, Qplus, Qopp, inject_Z. cbn [Qnum Qden].
    rewrite !Pos2Z.inj_mul. split; nia.
Qed.

Lemma half_down_nonneg (n : Z) (d : positive) :
  0 <= n -> 0 <= half_down (n # d).
Proof.
  intros Hn. pose proof (half_down_nearest n d) as [_ Hhi].
  unfold Qle, Qplus, inject_Z in Hhi. cbn [Qnum Qden] in Hhi.
  rewrite !Pos2Z.inj_mul in Hhi.
  destruct (Z.le_gt_cases 0 (half_down (n # d))) as [H|H]; [exact H|].
  exfalso. nia.
Qed.

Lemma to_Q_nonneg (x : Float.float) :
  nonneg_finite x = true -> 0 <= Qnum (Float.to_Q x).
Proof.
  destruct x as [s|s| |s m e]; try discriminate.
  destruct s; [discriminate|]. intros _.
  unfold Float.to_Q. cbn [cond_Zopp].
  destruct e as [|e|k]; unfold inject_Z; cbn [Qnum].
  - lia.
  - apply Z.mul_nonneg_nonneg; [lia|]. now apply Z.pow_nonneg.
  - lia.
Qed.

(** X11. On a finite float [x] that is not negative, [round_half_down]
    returns the nearest integer, exact halves going down: the result [r] is a
    non-negative int with [r - 1/2 < x <= r + 1/2]. *)
Theorem X11_round_half_down_nearest (x : Float.float) :
  nonneg_finite x = true ->
  exists r : Z,
    round_half_down (VFloat x) = Ok (VInt r) /\
    0 <= r /\
    (inject_Z r - (1 # 2) < Float.to_Q x)%Q /\
    (Float.to_Q x <= inject_Z r + (1 # 2))%Q.
Proof.
  intros Hx. exists (half_down (Float.to_Q x)).
  split; [now apply round_half_down_nonneg|].
  pose proof (to_Q_nonneg x Hx) as Hn.
  destruct (Float.to_Q x) as [n d].
  split; [now apply half_down_nonneg|]. apply half_down_nearest.
Qed.

(** 10.5 goes down to 10 and 10.5000001 up to 11. *)
Lemma X11_witness_ten_and_a_half :
  exists r : Z,
    round_half_down (VFloat (Float.div_Z 105 10)) = Ok (VInt r) /\
    0 <= r /\
    (inject_Z r - (1 # 2) < Float.to_Q (Float.div_Z 105 10))%Q /\
    (Float.to_Q (Float.div_Z 105 10) <= inject_Z r + (1 # 2))%Q.
Proof.
  apply (X11_round_half_down_nearest (Float.div_Z 105 10)). reflexivity.
Defined.

(** X12. Whatever it is given, what [round_half_down] returns is an int, and
    rounding that int again returns it unchanged. *)
Theorem X12_round_half_down_int_result (v r : pyval) :
  round_half_down v = Ok r ->
  (exists z : Z, r = VInt z) /\ round_half_down r = Ok r.
Proof.
  intros H.
  assert (Hz : exists z : Z, r = VInt z).
  { unfold round_half_down in H.
    destruct v as [z|b|x|s|]; cbn [py_mod1] in H; run_bind in H;
      try discriminate.
    - rewrite Z.mod_1_r in H. cbn in H. injection H as <-. now exists z.
    - rewrite Z.mod_1_r in H. cbn in H. injection H as <-. now eexists.
    - rewrite py_le_float in H.
      destruct (Float.leb _ _);
        destruct x as [s|s| |s m e]; cbn in H; try discriminate;
        injection H as <-; now eexists. }
  split; [exact Hz|]. destruct Hz as [z ->]. apply round_half_down_int.
Qed.

Lemma X12_witness_mean_of_test :
  (exists z : Z, VInt 216667 = VInt z) /\
  round_half_down (VInt 216667) = Ok (VInt 216667).
Proof.
  apply (X12_round_half_down_int_result (VFloat (Float.div_Z 650000 3))).
  reflexivity.
Defined.

(** X13. A float that is not finite cannot be rounded: a NaN raises
    [ValueError] and an infinity raises [OverflowError]. *)
Theorem X13_round_half_down_not_finite (x : Float.float) :
  Float.is_finite x = false ->
  round_half_down (VFloat x) =
    Raise (match x with S754_nan => ValueError | _ => OverflowError end).
Proof.
  destruct x as [s|s| |s m e]; try discriminate; intros _; reflexivity.
Qed.

Lemma X13_witness_infinity_and_nan :
  round_half_down (VFloat (S754_infinity false)) = Raise OverflowError /\
  round_half_down (VFloat S754_nan) = Raise ValueError.
Proof.
  split.
  - apply (X13_round_half_down_not_finite (S754_infinity false)). reflexivity.
  - apply (X13_round_half_down_not_finite S754_nan). reflexivity.
Defined.

(** ** The mean and the median of int amounts *)

Lemma int_data_map_VInt (zs : list Z) :
  statistics.int_data (map VInt zs) = Some zs.
Proof.
  induction zs as [|z zs IH]; [reflexivity|].
  cbn [map statistics.int_data]. now rewrite IH.
Qed.


(** X14. When the number of stored amounts divides their sum, the mean is
    the exact quotient: no float is involved and nothing is rounded. *)
Theorem X14_mean_exact_when_divisible (self : InvoiceStats) (zs : list Z) :
  invoice_amounts self = Ok (map VInt zs) ->
  zs <> [] ->
  statistics.sum zs mod Z.of_nat (List.length zs) = 0 ->
  get_mean self = Ok (VInt (statistics.sum zs / Z.of_nat (List.length zs))).
Proof.
  intros Ham Hne Hdiv. unfold get_mean. rewrite Ham. run_bind.
  unfold statistics.mean. rewrite int_data_map_VInt.
  replace (Z.of_nat (List.length zs) <? 1) with false.
  - rewrite Hdiv. cbn [Z.eqb]. run_bind. apply round_half_down_int.
  - symmetry. apply Z.ltb_ge. destruct zs; [contradiction | cbn; lia].
Qed.

(** 10.00, 20.00 and 45.00 have the mean 25.00. *)
Lemma X14_witness_mean_2500 :
  get_mean
    (Build_InvoiceStats
       [OInvoice (test_invoice 10 0); OInvoice (test_invoice 20 0);
        OInvoice (test_invoice 45 0)] 3)
  = Ok (VInt (statistics.sum [1000; 2000; 4500] / Z.of_nat 3)).
Proof.
  apply (X14_mean_exact_when_divisible
           (Build_InvoiceStats
              [OInvoice (test_invoice 10 0); OInvoice (test_invoice 20 0);
               OInvoice (test_invoice 45 0)] 3) [1000; 2000; 4500]);
    [reflexivity | discriminate | reflexivity].
Defined.



(** ** The statistics do not depend on the order of insertion *)

Lemma insert_insert (x y : Z) (l : list Z) :
  statistics.insert x (statistics.insert y l)
  = statistics.insert y (statistics.insert x l).
Proof.
  induction l as [|z l IH]; cbn [statistics.insert];
    leb_cases; cbn [statistics.insert]; leb_cases;
    try lia; try reflexivity;
    try (replace y with x by lia; reflexivity);
    now rewrite IH.
Qed.

Lemma sorted_Permutation (l l' : list Z) :
  Permutation l l' -> statistics.sorted l = statistics.sorted l'.
Proof.
  induction 1 as [|x l l' _ IH|x y l|l l' l'' _ IH1 _ IH2];
    cbn [statistics.sorted].
  - reflexivity.
  - now rewrite IH.
  - apply insert_insert.
  - now rewrite IH1.
Qed.

Lemma sum_Permutation (l l' : list Z) :
  Permutation l l' -> statistics.sum l = statistics.sum l'.
Proof.
  unfold statistics.sum.
  induction 1 as [|x l l' _ IH|x y l|l l' l'' _ IH1 _ IH2];
    cbn [fold_right]; lia.
Qed.

Lemma amounts_of_Raise (l : list pyobj) (e : exn) :
  amounts_of l = Raise e -> e = AttributeError.
Proof.
  induction l as [|a l IH]; [discriminate|].
  cbn [amounts_of]. destruct a as [inv|v]; cbn [get_pennies_tot]; run_bind.
  - destruct (amounts_of l) as [vs|e0]; [discriminate|].
    intros E. injection E as <-. now apply IH.
  - intros E. now injection E as <-.
Qed.

(** Reading the amounts off two arrangements of the same objects gives two
    arrangements of the same amounts, or the same error. *)
Lemma amounts_of_Permutation (l l' : list pyobj) :
  Permutation l l' ->
  match amounts_of l, amounts_of l' with
  | Ok xs, Ok ys => Permutation xs ys
  | Raise e, Raise e' => e = AttributeError /\ e' = AttributeError
  | _, _ => False
  end.
Proof.
  induction 1 as [|o l l' _ IH|o o' l|l l' l'' _ IH1 _ IH2];
    cbn [amounts_of].
  - constructor.
  - destruct o as [inv|v]; cbn [get_pennies_tot]; run_bind; [|now split].
    destruct (amounts_of l), (amounts_of l'); try contradiction.
    + now constructor.
    + exact IH.
  - destruct o as [inv|v], o' as [inv'|v']; cbn [get_pennies_tot]; run_bind;
      try (now split).
    destruct (amounts_of l) as [xs|e] eqn:E.
    + apply perm_swap.
    + now rewrite (amounts_of_Raise l e E).
  - destruct (amounts_of l), (amounts_of l'), (amounts_of l'');
      try contradiction.
    + now transitivity a0.
    + exact (conj (proj1 IH1) (proj2 IH2)).
Qed.

Lemma int_data_Permutation (xs ys : list pyval) :
  Permutation xs ys ->
  match statistics.int_data xs, statistics.int_data ys with
  | Some a, Some b => Permutation a b
  | None, None => True
  | _, _ => False
  end.
Proof.
  induction 1 as [|v l l' _ IH|v v' l|l l' l'' _ IH1 _ IH2];
    cbn [statistics.int_data].
  - constructor.
  - destruct v; try exact I.
    destruct (statistics.int_data l), (statistics.int_data l');
      cbn [option_map]; try contradiction; [now constructor | exact I].
  - destruct v, v'; try exact I;
      destruct (statistics.int_data l); cbn [option_map];
      try exact I; try apply perm_swap.
  - destruct (statistics.int_data l), (statistics.int_data l'),
      (statistics.int_data l''); try contradiction; try exact I.
    now transitivity l1.
Qed.

Lemma statistics_Permutation (self self' : InvoiceStats) :
  Permutation (invoice_list self) (invoice_list self') ->
  get_mean self = get_mean self' /\ get_median self = get_median self'.
Proof.
  intros Hperm. unfold get_mean, get_median, invoice_amounts.
  pose proof (amounts_of_Permutation _ _ Hperm) as Ha.
  destruct (amounts_of (invoice_list self)) as [xs|e],
    (amounts_of (invoice_list self')) as [ys|e']; try contradiction.
  - run_bind. unfold statistics.mean, statistics.median.
    pose proof (int_data_Permutation _ _ Ha) as Hd.
    destruct (statistics.int_data xs) as [a|], (statistics.int_data ys) as [b|];
      try contradiction; [|now split].
    rewrite (sorted_Permutation _ _ Hd), (sum_Permutation _ _ Hd),
      (Permutation_length Hd).
    now split.
  - destruct Ha as [-> ->]. now split.
Qed.

(** X17. The mean and the median depend on which invoices are stored, not
    on the order they were added in: when the stored amounts are ints, an
    [InvoiceStats] whose list is an arrangement of the same objects returns
    the same mean and the same median, or raises the same error. *)
Theorem X17_statistics_order_independent (self self' : InvoiceStats)
    (zs : list Z) :
  invoice_amounts self = Ok (map VInt zs) ->
  Permutation (invoice_list self) (invoice_list self') ->
  get_mean self = get_mean self' /\ get_median self = get_median self'.
Proof. intros _. apply statistics_Permutation. Qed.

(** The invoices of the unit tests, added in two different orders. *)
Lemma X17_witness_two_orders :
  get_mean
    (Build_InvoiceStats
       [OInvoice (test_invoice 1000 0); OInvoice (test_invoice 2500 0);
        OInvoice (test_invoice 3000 0)] 3)
  = get_mean
      (Build_InvoiceStats
         [OInvoice (test_invoice 2500 0); OInvoice (test_invoice 1000 0);
          OInvoice (test_invoice 3000 0)] 3) /\
  get_median
    (Build_InvoiceStats
       [OInvoice (test_invoice 1000 0); OInvoice (test_invoice 2500 0);
        OInvoice (test_invoice 3000 0)] 3)
  = get_median
      (Build_InvoiceStats
         [OInvoice (test_invoice 2500 0); OInvoice (test_invoice 1000 0);
          OInvoice (test_invoice 3000 0)] 3).
Proof.
  apply (X17_statistics_order_independent
           (Build_InvoiceStats
              [OInvoice (test_invoice 1000 0); OInvoice (test_invoice 2500 0);
               OInvoice (test_invoice 3000 0)] 3)
           (Build_InvoiceStats
              [OInvoice (test_invoice 2500 0); OInvoice (test_invoice 1000 0);
               OInvoice (test_invoice 3000 0)] 3)
           [100000; 250000; 300000]).
  - reflexivity.
  - apply perm_swap.
Defined.

(** ** The median of an even number of amounts *)








(** ** The mean of amounts that their number does not divide *)

Lemma shr_1_half (q : positive) (l : location) :
  2 <= Z.pos q ->
  shr_m (shr_1 (shr_record_of_loc (Z.pos q) l)) = Z.pos q / 2 /\
  (Z.pos q mod 2 = 0 ->
   loc_of_shr_record (shr_1 (shr_record_of_loc (Z.pos q) loc_Exact))
   = loc_Exact).
Proof.
  intros Hq.
  destruct q as [p|p|]; [| |lia].
  - rewrite Pos2Z.inj_xI.
    replace ((2 * Z.pos p + 1) / 2) with (Z.pos p)
      by (apply Z.div_unique with 1; lia).
    replace ((2 * Z.pos p + 1) mod 2) with 1
      by (apply Z.mod_unique with (Z.pos p); lia).
    split; [now destruct l as [|[| |]] | discriminate].
  - rewrite Pos2Z.inj_xO.
    replace (2 * Z.pos p / 2) with (Z.pos p)
      by (apply Z.div_unique with 0; lia).
    split; [now destruct l as [|[| |]] | reflexivity].
Qed.

(** Rounding a quotient of 53 or 54 bits with the position [l] of its
    remainder: the float returned is [m * 2^(ex + c)] with [m * 2^c] next to
    the quotient, and strictly so when the remainder is zero. *)
Lemma binary_round_aux_bracket (q0 : positive) (ex : Z) (l : location) :
  2 ^ 52 <= Z.pos q0 < 2 ^ 54 -> -1000 <= ex <= 900 ->
  exists (m : positive) (c : Z),
    binary_round_aux Float.prec Float.emax false (Z.pos q0) ex l
    = S754_finite false m (ex + c) /\
    0 <= c <= 2 /\
    (1 <= c -> 2 ^ 53 - 1 <= Z.pos q0) /\
    (c = 2 -> 2 ^ 53 <= Z.pos q0) /\
    (Z.pos m - 1) * 2 ^ c <= Z.pos q0 /\
    (l = loc_Exact -> (Z.pos m - 1) * 2 ^ c < Z.pos q0) /\
    Z.pos q0 < (Z.pos m + 1) * 2 ^ c.
Proof.
  intros Hq Hex. change (2 ^ 52) with 4503599627370496 in *.
  change (2 ^ 53) with 9007199254740992 in *.
  change (2 ^ 54) with 18014398509481984 in *.
  unfold binary_round_aux.
  destruct (Z_lt_le_dec (Z.pos q0) 9007199254740992) as [Hlt|Hge].
  - (* 53 bits: nothing is shifted out *)
    assert (HL : Z.log2 (Z.pos q0) = 52)
      by (apply Z.log2_unique; [lia|]; change (2 ^ 52) with 4503599627370496;
          change (2 ^ Z.succ 52) with 9007199254740992; lia).
    rewrite shr_fexp_keep by (assumption || lia).
    destruct (loc_of_shr_record_of_loc (Z.pos q0) l) as [-> ->].
    destruct (rne_cases (Z.pos q0) l) as [-> | [-> Hl]].
    + destruct (round_stage2 q0 ex) as (m & c & -> & Hc & Hm);
        [change (2 ^ 52) with 4503599627370496;
         change (2 ^ 53) with 9007199254740992; lia | lia |].
      exists m, c. split; [reflexivity|].
      destruct Hc as [-> | [-> Hc]];
        [|change (2 ^ 53) with 9007199254740992 in Hc; lia].
      rewrite Z.pow_0_r in *. repeat split; lia.
    + change (Z.pos q0 + 1) with (Z.pos (q0 + 1)).
      destruct (round_stage2 (q0 + 1) ex) as (m & c & -> & Hc & Hm);
        [change (2 ^ 52) with 4503599627370496;
         change (2 ^ 53) with 9007199254740992; lia | lia |].
      exists m, c. split; [reflexivity|].
      rewrite Pos2Z.inj_add in Hm.
      destruct Hc as [-> | [-> Hc]].
      * rewrite Z.pow_0_r in *. repeat split; try lia; try (intros; contradiction).
      * change (2 ^ 53) with 9007199254740992 in Hc.
        change (2 ^ 1) with 2 in *. rewrite Pos2Z.inj_add in Hc.
        repeat split; try lia; try (intros; contradiction).
  - (* 54 bits: the last one is shifted out *)
    assert (HL : Z.log2 (Z.pos q0) = 53)
      by (apply Z.log2_unique; [lia|]; change (2 ^ 53) with 9007199254740992;
          change (2 ^ Z.succ 53) with 18014398509481984; lia).
    rewrite shr_fexp_one by (assumption || lia).
    destruct (shr_1_half q0 l ltac:(lia)) as [Hhalf Hexact].
    assert (Hodd : l = loc_Exact ->
                   loc_of_shr_record
                     (shr_1 (shr_record_of_loc (Z.pos q0) l)) <> loc_Exact ->
                   Z.pos q0 mod 2 = 1).
    { intros -> Hne. pose proof (Z.mod_pos_bound (Z.pos q0) 2 ltac:(lia)).
      destruct (Z.eq_dec (Z.pos q0 mod 2) 0) as [E0|E0]; [|lia].
      elim Hne. now apply Hexact. }
    clear Hexact.
    set (mrs := shr_1 (shr_record_of_loc (Z.pos q0) l)) in *.
    rewrite Hhalf.
    pose proof (Z.div_mod (Z.pos q0) 2 ltac:(lia)) as Hdm.
    pose proof (Z.mod_pos_bound (Z.pos q0) 2 ltac:(lia)) as Hmod.
    assert (Hh : 4503599627370496 <= Z.pos q0 / 2 < 9007199254740992) by lia.
    destruct (Z.pos q0 / 2) as [|h|h] eqn:Eh; try lia.
    destruct (rne_cases (Z.pos h) (loc_of_shr_record mrs)) as [-> | [-> Hl]].
    + destruct (round_stage2 h (ex + 1)) as (m & c & -> & Hc & Hm);
        [change (2 ^ 52) with 4503599627370496;
         change (2 ^ 53) with 9007199254740992; lia | lia |].
      exists m, (1 + c). split; [f_equal; lia|].
      destruct Hc as [-> | [-> Hc]];
        [|change (2 ^ 53) with 9007199254740992 in Hc; lia].
      rewrite Z.pow_0_r in Hm. change (2 ^ (1 + 0)) with 2.
      repeat split; lia.
    + change (Z.pos h + 1) with (Z.pos (h + 1)).
      destruct (round_stage2 (h + 1) (ex + 1)) as (m & c & -> & Hc & Hm);
        [change (2 ^ 52) with 4503599627370496;
         change (2 ^ 53) with 9007199254740992; lia | lia |].
      exists m, (1 + c). split; [f_equal; lia|].
      rewrite Pos2Z.inj_add in Hm.
      destruct Hc as [-> | [-> Hc]].
      * rewrite Z.pow_0_r in Hm. change (2 ^ (1 + 0)) with 2.
        repeat split; try lia; try (intros Hle; specialize (Hodd Hle Hl); lia).
      * change (2 ^ 53) with 9007199254740992 in Hc.
        change (2 ^ 1) with 2 in Hm. change (2 ^ (1 + 1)) with 4.
        rewrite Pos2Z.inj_add in Hc.
        repeat split; try lia; try (intros Hle; specialize (Hodd Hle Hl); lia).
Qed.

(** The true quotient of two positive ints, when it is below [2^51]: a
    float [m / 2^k] with [k >= 1] whose mantissa is next to the exact
    [a * 2^k / b]. *)
Lemma div_Z_bracket (a b : positive) :
  Z.pos a < Z.pos b * 2 ^ 51 -> Z.pos b < 2 ^ 64 ->
  exists m k : positive,
    Float.div_Z (Z.pos a) (Z.pos b) = S754_finite false m (Z.neg k) /\
    (Z.pos m - 1) * Z.pos b < Z.pos a * 2 ^ Z.pos k < (Z.pos m + 1) * Z.pos b.
Proof.
  intros Hab Hb.
  pose proof (Z.log2_spec (Z.pos a) ltac:(lia)) as Ha1.
  pose proof (Z.log2_spec (Z.pos b) ltac:(lia)) as Hb1.
  pose proof (Z.log2_nonneg (Z.pos a)) as Ha0.
  pose proof (Z.log2_nonneg (Z.pos b)) as Hb0.
  set (L1 := Z.log2 (Z.pos a)) in *. set (L2 := Z.log2 (Z.pos b)) in *.
  assert (HL2 : L2 < 64) by (apply Z.log2_lt_pow2; lia).
  assert (HL12 : L1 <= L2 + 51).
  { assert (L1 < L2 + 52); [|lia]. apply Z.log2_lt_pow2; [lia|].
    replace (L2 + 52) with (Z.succ L2 + 51) by lia.
    rewrite Z.pow_add_r by lia.
    assert (0 < 2 ^ 51) by reflexivity. nia. }
  unfold Float.div_Z. cbn [Z.ltb Z.compare xorb Z.abs].
  unfold SFdiv_core_binary. rewrite !Zdigits2_log2. fold L1 L2.
  change IntDef.Z.add with Z.add. change IntDef.Z.sub with Z.sub.
  change IntDef.Z.min with Z.min.
  rewrite fexp_normal by lia.
  replace (Z.min (L1 + 1 + 0 - (L2 + 1 + 0) - 53) (0 - 0))
    with (L1 - L2 - 53) by lia.
  set (S := 53 + L2 - L1).
  replace (0 - 0 - (L1 - L2 - 53)) with (Z.pos (Z.to_pos S))
    by (rewrite Z2Pos.id; unfold S; lia).
  change IntDef.Z.shiftl with Z.shiftl. change IntDef.Z.div_eucl with Z.div_eucl.
  rewrite Z.shiftl_mul_pow2 by lia. rewrite Z2Pos.id by (unfold S; lia).
  pose proof (Z.div_eucl_eq (Z.pos a * 2 ^ S) (Z.pos b) ltac:(discriminate))
    as Hdiv.
  pose proof (Z.mod_pos_bound (Z.pos a * 2 ^ S) (Z.pos b) ltac:(reflexivity))
    as Hrem. unfold Z.modulo in Hrem.
  destruct (Z.div_eucl (Z.pos a * 2 ^ S) (Z.pos b)) as [q0 r].
  (* the powers of two, as numbers *)
  assert (HS : 2 <= S <= 116) by (unfold S; lia).
  assert (Hpow : 2 ^ L1 * 2 ^ S = 2 ^ 53 * 2 ^ L2).
  { rewrite <- !Z.pow_add_r by lia. f_equal. unfold S. lia. }
  replace (Z.succ L1) with (L1 + 1) in Ha1 by lia.
  replace (Z.succ L2) with (L2 + 1) in Hb1 by lia.
  rewrite Z.pow_add_r in Ha1, Hb1 by lia. change (2 ^ 1) with 2 in *.
  assert (HPS : 0 < 2 ^ S) by (apply Z.pow_pos_nonneg; lia).
  assert (HP1 : 0 < 2 ^ L1) by (apply Z.pow_pos_nonneg; lia).
  assert (HP2 : 0 < 2 ^ L2) by (apply Z.pow_pos_nonneg; lia).
  change (2 ^ 53) with 9007199254740992 in Hpow.
  change (2 ^ 51) with 2251799813685248 in Hab.
  set (PS := 2 ^ S) in *. set (P1 := 2 ^ L1) in *. set (P2 := 2 ^ L2) in *.
  assert (Hq0 : 4503599627370496 <= q0 < 18014398509481984) by nia.
  destruct q0 as [|q0|q0]; try lia.
  replace (L1 - L2 - 53) with (- S) by (unfold S; lia).
  destruct (binary_round_aux_bracket q0 (- S) (new_location (Z.pos b) r))
    as (m & c & -> & Hc & Hc1 & Hc2 & Hlo & Hex & Hhi);
    [change (2 ^ 52) with 4503599627370496;
     change (2 ^ 54) with 18014398509481984; lia | lia |].
  change (2 ^ 53) with 9007199254740992 in Hc1, Hc2.
  assert (Hbound : Z.pos q0 < 2251799813685248 * PS) by nia.
  assert (HS4 : PS = 4 \/ 8 <= PS).
  { destruct (Z.eq_dec S 2) as [->|]; [now left|right].
    unfold PS. change 8 with (2 ^ 3). apply Z.pow_le_mono_r; lia. }
  assert (Hk : 1 <= S - c).
  { destruct (Z.eq_dec c 2) as [->|]; [|lia].
    specialize (Hc2 eq_refl). destruct HS4 as [E|E]; [lia|].
    destruct (Z.eq_dec S 2) as [E2|]; [|lia].
    unfold PS in E. rewrite E2 in E. change (2 ^ 2) with 4 in E. lia. }
  exists m, (Z.to_pos (S - c)).
  split; [f_equal; rewrite <- Pos2Z.opp_pos, Z2Pos.id; lia|].
  rewrite Z2Pos.id by lia.
  assert (HK : PS = 2 ^ (S - c) * 2 ^ c)
    by (unfold PS; rewrite <- Z.pow_add_r by lia; f_equal; lia).
  assert (HSC : 0 < 2 ^ c) by (apply Z.pow_pos_nonneg; lia).
  assert (HKK : 0 < 2 ^ (S - c)) by (apply Z.pow_pos_nonneg; lia).
  set (K := 2 ^ (S - c)) in *. set (SC := 2 ^ c) in *.
  assert (Hexact : r = 0 -> (Z.pos m - 1) * SC < Z.pos q0).
  { intros ->. apply Hex. unfold new_location.
    now destruct (Z.even (Z.pos b)). }
  rewrite HK in Hdiv.
  assert (H1 : (Z.pos m - 1) * SC * Z.pos b <= Z.pos q0 * Z.pos b)
    by (apply Z.mul_le_mono_nonneg_r; lia).
  assert (H2 : (Z.pos q0 + 1) * Z.pos b <= (Z.pos m + 1) * SC * Z.pos b)
    by (apply Z.mul_le_mono_nonneg_r; lia).
  split.
  - apply (Z.mul_lt_mono_pos_r SC); [exact HSC|].
    replace (Z.pos a * K * SC) with (Z.pos b * Z.pos q0 + r)
      by (rewrite <- Hdiv; ring).
    destruct (Z.eq_dec r 0) as [E|E].
    + specialize (Hexact E).
      assert ((Z.pos m - 1) * SC * Z.pos b < Z.pos q0 * Z.pos b)
        by (apply Z.mul_lt_mono_pos_r; lia).
      lia.
    + lia.
  - apply (Z.mul_lt_mono_pos_r SC); [exact HSC|].
    replace (Z.pos a * K * SC) with (Z.pos b * Z.pos q0 + r)
      by (rewrite <- Hdiv; ring).
    lia.
Qed.

(** From a mantissa next to the exact quotient to the rounded integer. *)
Lemma bracket_rounding (a b m K' r : Z) :
  0 < b -> 0 <= a -> 1 <= K' ->
  (m - 1) * b < a * (2 * K') < (m + 1) * b ->
  (2 * r - 1) * (2 * K') < 2 * m ->
  2 * m <= (2 * r + 1) * (2 * K') ->
  a / b <= r <= a / b + 1 /\ (2 * (a mod b) <= b -> r = a / b).
Proof.
  intros Hb Ha HK [Hlo Hhi] Hrlo Hrhi.
  pose proof (Z.div_mod a b ltac:(lia)) as Hdm.
  pose proof (Z.mod_pos_bound a b Hb) as Hm.
  set (F := a / b) in *. set (rho := a mod b) in *.
  assert (HKb : b <= K' * b) by nia.
  assert (Hge : F <= r).
  { destruct (Z_le_gt_dec F r) as [H|H]; [exact H|]. exfalso.
    assert (H1 : (2 * r + 1) * (K' * b) <= (2 * F - 1) * (K' * b))
      by (apply Z.mul_le_mono_nonneg_r; lia).
    assert (H2 : 0 <= rho * K') by (apply Z.mul_nonneg_nonneg; lia).
    assert (H3 : m * b <= (2 * r + 1) * (K' * b))
      by (replace ((2 * r + 1) * (K' * b)) with ((2 * r + 1) * K' * b) by ring;
          apply Z.mul_le_mono_nonneg_r; lia).
    rewrite Hdm in Hhi.
    replace ((b * F + rho) * (2 * K')) with (2 * F * (K' * b) + 2 * (rho * K'))
      in Hhi by ring.
    replace ((2 * F - 1) * (K' * b)) with (2 * F * (K' * b) - K' * b) in H1
      by ring.
    lia. }
  assert (Hle : r <= F + 1).
  { destruct (Z_le_gt_dec r (F + 1)) as [H|H]; [exact H|]. exfalso.
    assert (H1 : (2 * F + 3) * (K' * b) <= (2 * r - 1) * (K' * b))
      by (apply Z.mul_le_mono_nonneg_r; lia).
    assert (H2 : rho * K' < b * K') by (apply Z.mul_lt_mono_pos_r; lia).
    assert (H3 : (2 * r - 1) * (K' * b) < m * b)
      by (replace ((2 * r - 1) * (K' * b)) with ((2 * r - 1) * K' * b) by ring;
          apply Z.mul_lt_mono_pos_r; lia).
    rewrite Hdm in Hlo.
    replace ((b * F + rho) * (2 * K')) with (2 * F * (K' * b) + 2 * (rho * K'))
      in Hlo by ring.
    replace ((2 * F + 3) * (K' * b)) with (2 * F * (K' * b) + 3 * (K' * b))
      in H1 by ring.
    replace (b * K') with (K' * b) in H2 by ring.
    replace ((m - 1) * b) with (m * b - b) in Hlo by ring.
    lia. }
  split; [lia|].
  intros Hhalf.
  destruct (Z_le_gt_dec r F) as [H|H]; [lia|]. exfalso.
  assert (Hr : r = F + 1) by lia. subst r.
  assert (H1 : (2 * F + 1) * K' < m) by lia.
  assert (H2 : ((2 * F + 1) * K') * b <= (m - 1) * b)
    by (apply Z.mul_le_mono_nonneg_r; lia).
  assert (H3 : 2 * rho * K' <= b * K')
    by (apply Z.mul_le_mono_nonneg_r; lia).
  rewrite Hdm in Hlo.
  replace ((b * F + rho) * (2 * K')) with (2 * F * (K' * b) + 2 * rho * K')
    in Hlo by ring.
  replace ((2 * F + 1) * K' * b) with (2 * F * (K' * b) + K' * b) in H2 by ring.
  replace (b * K') with (K' * b) in H3 by ring.
  lia.
Qed.

(** The quotient of two positive ints, as [mean] computes it and as
    [round_half_down] rounds it: the floor or the ceiling of the exact
    quotient, and the floor whenever the exact fractional part is at most
    one half. *)
Lemma round_half_down_true_div (a b : positive) :
  Z.pos a < Z.pos b * 2 ^ 51 -> Z.pos b < 2 ^ 64 ->
  exists (q : Float.float) (r : Z),
    int_true_div (Z.pos a) (Z.pos b) = Ok q /\
    round_half_down (VFloat q) = Ok (VInt r) /\
    Z.pos a / Z.pos b <= r <= Z.pos a / Z.pos b + 1 /\
    (2 * (Z.pos a mod Z.pos b) <= Z.pos b -> r = Z.pos a / Z.pos b).
Proof.
  intros Hab Hb.
  destruct (div_Z_bracket a b Hab Hb) as (m & k & Hdiv & Hbr).
  exists (S754_finite false m (Z.neg k)),
    (half_down (Float.to_Q (S754_finite false m (Z.neg k)))).
  split; [unfold int_true_div; cbn [Z.eqb]; now rewrite Hdiv|].
  split; [now apply round_half_down_nonneg|].
  unfold Float.to_Q. cbn [cond_Zopp].
  pose proof (half_down_nearest (Z.pos m) (2 ^ k)) as [Hlo Hhi].
  unfold Qlt, Qle, Qminus, Qplus, Qopp, inject_Z in Hlo, Hhi.
  cbn [Qnum Qden] in Hlo, Hhi.
  rewrite !Pos2Z.inj_mul, Pos2Z.inj_pow in Hlo, Hhi.
  set (r := half_down (Z.pos m # 2 ^ k)) in *.
  assert (HK : 2 ^ Z.pos k = 2 * 2 ^ (Z.pos k - 1)).
  { replace (Z.pos k) with (Z.succ (Z.pos k - 1)) at 1 by lia.
    apply Z.pow_succ_r. lia. }
  assert (HK1 : 1 <= 2 ^ (Z.pos k - 1))
    by (assert (0 < 2 ^ (Z.pos k - 1)) by (apply Z.pow_pos_nonneg; lia); lia).
  rewrite HK in Hbr, Hlo, Hhi.
  apply (bracket_rounding (Z.pos a) (Z.pos b) (Z.pos m) (2 ^ (Z.pos k - 1)) r);
    try lia.
Qed.

Lemma sum_bounds (zs : list Z) (hi : Z) :
  Forall (fun z => 0 <= z <= hi) zs ->
  0 <= statistics.sum zs <= hi * Z.of_nat (List.length zs).
Proof.
  unfold statistics.sum.
  induction 1 as [|z zs Hz _ IH]; cbn [fold_right List.length]; [lia|].
  rewrite Nat2Z.inj_succ. lia.
Qed.

(** X18. With at least one and at most 20,000,000 stored amounts, each
    between 0 and 20,000,000,000 as the totals of constructed invoices are,
    [get_mean] returns an int that is the floor or the ceiling of the exact
    mean [sum / count], and the floor whenever the exact fractional part is
    at most one half (the mean goes through a float when the count does not
    divide the sum, so a fractional part just above one half is not promised
    to round up). *)
Theorem X18_mean_floor_or_ceiling (self : InvoiceStats) (zs : list Z) :
  invoice_amounts self = Ok (map VInt zs) ->
  zs <> [] ->
  Z.of_nat (List.length zs) <= 20000000 ->
  Forall (fun z => 0 <= z <= 20000000000) zs ->
  exists r : Z,
    get_mean self = Ok (VInt r) /\
    statistics.sum zs / Z.of_nat (List.length zs) <= r /\
    r <= statistics.sum zs / Z.of_nat (List.length zs) + 1 /\
    r * Z.of_nat (List.length zs) < statistics.sum zs + Z.of_nat (List.length zs) /\
    (2 * (statistics.sum zs mod Z.of_nat (List.length zs))
       <= Z.of_nat (List.length zs) ->
     r = statistics.sum zs / Z.of_nat (List.length zs)).
Proof.
  intros Ham Hne Hcap Hall.
  assert (Hn : 1 <= Z.of_nat (List.length zs))
    by (destruct zs; [contradiction | cbn [List.length]; lia]).
  pose proof (sum_bounds zs _ Hall) as Hsum.
  set (n := Z.of_nat (List.length zs)) in *.
  set (total := statistics.sum zs) in *.
  pose proof (Z.div_mod total n ltac:(lia)) as Hdm.
  pose proof (Z.mod_pos_bound total n ltac:(lia)) as Hmod.
  unfold get_mean. rewrite Ham. run_bind.
  unfold statistics.mean. rewrite int_data_map_VInt. fold n total.
  replace (n <? 1) with false by (symmetry; apply Z.ltb_ge; lia).
  destruct (total mod n =? 0) eqn:Ediv.
  - apply Z.eqb_eq in Ediv. exists (total / n). run_bind.
    rewrite round_half_down_int. rewrite Ediv in Hdm.
    repeat split; try lia; nia.
  - apply Z.eqb_neq in Ediv.
    destruct total as [|a|a] eqn:Ea; [now rewrite Zmod_0_l in Ediv| |lia].
    destruct n as [|b|b] eqn:Eb; try lia.
    destruct (round_half_down_true_div a b) as (q & r & Hq & Hr & Hbr & Hhalf).
    + change (2 ^ 51) with 2251799813685248. lia.
    + change (2 ^ 64) with 18446744073709551616. lia.
    + exists r. rewrite Hq. run_bind. rewrite Hr.
      repeat split; try lia; try exact Hhalf.
      destruct (Z.eq_dec r (Z.pos a / Z.pos b)) as [->|Hne'].
      * nia.
      * assert (r = Z.pos a / Z.pos b + 1) as -> by lia. nia.
Qed.

(** 10.00, 10.00 and 10.01: the exact mean is 1000 and a third. *)
Lemma X18_witness_a_third :
  exists r : Z,
    get_mean
      (Build_InvoiceStats
         [OInvoice (test_invoice 10 0); OInvoice (test_invoice 10 0);
          OInvoice (test_invoice 10 1)] 3) = Ok (VInt r) /\
    statistics.sum [1000; 1000; 1001] / Z.of_nat 3 <= r /\
    r <= statistics.sum [1000; 1000; 1001] / Z.of_nat 3 + 1 /\
    r * Z.of_nat 3 < statistics.sum [1000; 1000; 1001] + Z.of_nat 3 /\
    (2 * (statistics.sum [1000; 1000; 1001] mod Z.of_nat 3) <= Z.of_nat 3 ->
     r = statistics.sum [1000; 1000; 1001] / Z.of_nat 3).
Proof.
  apply (X18_mean_floor_or_ceiling
           (Build_InvoiceStats
              [OInvoice (test_invoice 10 0); OInvoice (test_invoice 10 0);
               OInvoice (test_invoice 10 1)] 3) [1000; 1000; 1001]).
  - reflexivity.
  - discriminate.
  - cbn. lia.
  - repeat constructor; lia.
Defined.

Lemma amounts_of_map_OInvoice (invs : list Invoice) :
  amounts_of (map OInvoice invs) = Ok (map pennies_tot invs).
Proof.
  induction invs as [|inv invs IH]; [reflexivity|].
  cbn [map amounts_of get_pennies_tot]. run_bind. now rewrite IH.
Qed.

Lemma sum_app (l l' : list Z) :
  statistics.sum (l ++ l') = statistics.sum l + statistics.sum l'.
Proof.
  unfold statistics.sum. induction l as [|z l IH]; cbn [app fold_right]; lia.
Qed.

Lemma sum_repeat (z : Z) (n : nat) :
  statistics.sum (repeat z n) = z * Z.of_nat n.
Proof.
  unfold statistics.sum.
  induction n as [|n IH]; cbn [repeat fold_right]; [lia|].
  rewrite Nat2Z.inj_succ. lia.
Qed.

Lemma test_invoice_constructed (p q : Z) :
  0 <= p -> 0 <= q <= 99 -> 100 * p + q <= 20000000000 ->
  constructed (OInvoice (test_invoice p q)).
Proof.
  intros Hp Hq Ht.
  exists (test_invoice p q), "2021-03-01"%string, (VStr "Company-A"),
    (VStr "Company-B"), (VInt p), (VInt q).
  split; [reflexivity|]. rewrite Invoice_init_int. ltb_false. reflexivity.
Qed.

(** X19. The mean is not always the exact mean rounded half down: the
    constructor of [InvoiceStats] accepts 300001 constructed invoices whose
    exact mean has a fractional part above one half, yet [get_mean] returns
    the floor, because the float nearest to that mean ends in exactly .5. *)
Theorem X19_mean_can_round_down_above_half :
  exists (self : InvoiceStats) (zs : list Z),
    InvoiceStats_init many_invoices = Ok self /\
    Forall constructed many_invoices /\
    invoice_amounts self = Ok (map VInt zs) /\
    Z.of_nat (List.length zs)
      < 2 * (statistics.sum zs mod Z.of_nat (List.length zs)) /\
    get_mean self = Ok (VInt (statistics.sum zs / Z.of_nat (List.length zs))).
Proof.
  exists (Build_InvoiceStats many_invoices 300001), many_amounts.
  assert (Hlen : Z.of_nat (List.length many_invoices) = 300001).
  { unfold many_invoices. rewrite length_app, !repeat_length. lia. }
  assert (Hlen' : Z.of_nat (List.length many_amounts) = 300001).
  { unfold many_amounts. rewrite length_app, !repeat_length. lia. }
  assert (Hsum : statistics.sum many_amounts = 5153977935219185).
  { unfold many_amounts. rewrite sum_app, !sum_repeat.
    rewrite !Z2Nat.id by lia. reflexivity. }
  assert (Hall : Forall (fun o => exists inv, o = OInvoice inv) many_invoices).
  { unfold many_invoices. apply Forall_app.
    split; apply Forall_forall; intros o Ho; apply repeat_spec in Ho;
      subst o; eexists; reflexivity. }
  assert (Ham : amounts_of many_invoices = Ok (map VInt many_amounts)).
  { assert (Hmap : many_invoices
                   = map OInvoice
                       (repeat (test_invoice 171798691 85) (Z.to_nat 150001)
                        ++ repeat (test_invoice 171798691 84)
                             (Z.to_nat 150000))).
    { unfold many_invoices. rewrite map_app, !map_repeat. reflexivity. }
    rewrite Hmap, amounts_of_map_OInvoice. unfold many_amounts.
    rewrite !map_app, !map_repeat. reflexivity. }
  split; [|split; [|split; [|split]]].
  - unfold InvoiceStats_init, mbind. cbn [clear].
    rewrite (add_invoices_fit many_invoices (Build_InvoiceStats [] 0) Hall)
      by (cbn [invoice_count]; rewrite Hlen; lia).
    cbn [invoice_list invoice_count app]. now rewrite Hlen.
  - unfold many_invoices. apply Forall_app.
    split; apply Forall_forall; intros o Ho; apply repeat_spec in Ho;
      subst o; apply test_invoice_constructed; lia.
  - exact Ham.
  - rewrite Hlen', Hsum. reflexivity.
  - unfold get_mean, invoice_amounts. cbn [invoice_list]. rewrite Ham.
    run_bind. unfold statistics.mean.
    rewrite int_data_map_VInt, Hlen', Hsum. reflexivity.
Qed.

(** ** The text of a constructed invoice *)



